(** * csv_to_json.py: the TOPIK vocabulary table mapped to JSON records

    A shallow embedding of [csv_to_json.py].  The script reads a table with
    [pd.read_csv], maps every row to a dict in one pass, and serialises the
    list of dicts with [json.dump (..., ensure_ascii=False, indent=2)].

    The embedding has four layers:
    - [Py]: the Python values that reach the script, its exceptions, [int()];
    - [Pandas]: [DataFrame], row [Series], [iterrows] with the coercion of
      a row to one dtype, [pd.isna], lookup by label;
    - [Json]: the pure-Python encoder that [json.dump] runs when [indent] is
      given, as a generator of text chunks;
    - [Script]: the statements of the script, in source order.

    [Grammar] says what a JSON text is, [Spec] words the properties of the
    specification over these layers and [Demo] holds concrete tables; the
    theorems follow. *)

From Stdlib Require Import ZArith List String Ascii Bool Lia Permutation.
From Stdlib Require Import Floats.SpecFloat.
From Stdlib Require Import Numbers.DecimalString.
From Stdlib Require Numbers.DecimalFacts Numbers.DecimalPos.
Import ListNotations.

Local Open Scope list_scope.
Local Open Scope string_scope.

(* ====================================================================== *)
(** ** Python values, exceptions and builtins *)
(* ====================================================================== *)

Module Py.

(** The exceptions the script can end with. [KeyError] carries the label
    that was looked up. *)
Inductive exn : Type :=
| FileNotFoundError
| KeyError (label : string)
| ValueError
| OverflowError
| TypeError.

(** A computation that returns a value or raises. *)
Inductive outcome (A : Type) : Type :=
| OK (a : A)
| Raise (e : exn).
Arguments OK {A} a.
Arguments Raise {A} e.

Definition bind {A B : Type} (c : outcome A) (k : A -> outcome B) : outcome B :=
  match c with
  | OK a => k a
  | Raise e => Raise e
  end.

(** The values a cell of a parsed table can hold, in the table and when a
    row is handed to the script.  A row taken from a table with at least
    one text column has dtype [object] and holds Python objects ([Str],
    [Int], [Float], [Bool]); a row of a table whose columns are all of one
    numeric dtype holds numpy scalars: [numpy.float64] is an instance of
    [float] and is covered by [Float], [numpy.int64] and [numpy.bool_] are
    not instances of [int] and are [NpInt64] and [NpBool] (see
    [Pandas.coerce]).  Text is a UTF-8 byte string.  A float is an IEEE
    value in the Standard Library's [spec_float]; the missing-value marker
    of pandas is the float NaN. *)
Inductive scalar : Type :=
| Str (s : string)
| Int (z : Z)
| Float (f : spec_float)
| Bool (b : bool)
| NpInt64 (z : Z)
| NpBool (b : bool).

(** The values of an output record: [None] or a value taken from a cell. *)
Inductive pyval : Type :=
| PyNone
| Py (x : scalar).

(** The two library functions on which the script relies and whose text is
    not part of the repository: how [int()] reads a [str] ([None] when it
    raises [ValueError]) and [float.__repr__] on a finite float. *)
Class Builtins : Type := {
  int_of_str : string -> option Z;
  float_repr : spec_float -> string
}.

(** [float.__int__]: truncation towards zero; NaN raises [ValueError],
    an infinity raises [OverflowError]. *)
Definition float_trunc (f : spec_float) : outcome Z :=
  match f with
  | S754_zero _ => OK 0%Z
  | S754_infinity _ => Raise OverflowError
  | S754_nan => Raise ValueError
  | S754_finite s m e =>
      let mag := if (0 <=? e)%Z then (Z.pos m * 2 ^ e)%Z
                 else (Z.pos m / 2 ^ (- e))%Z in
      OK (if s then (- mag)%Z else mag)
  end.

(** [int(x)]. *)
Definition int `{Builtins} (x : scalar) : outcome Z :=
  match x with
  | Str s => match int_of_str s with
             | Some z => OK z
             | None => Raise ValueError
             end
  | Int z => OK z
  | Float f => float_trunc f
  | Bool b => OK (if b then 1%Z else 0%Z)
  | NpInt64 z => OK z
  | NpBool b => OK (if b then 1%Z else 0%Z)
  end.

(** The errors [int()] raises: the type-conversion errors. *)
Definition is_conversion_error (e : exn) : bool :=
  match e with
  | ValueError | OverflowError => true
  | _ => false
  end.

Definition is_key_error (e : exn) : bool :=
  match e with
  | KeyError _ => true
  | _ => false
  end.

(** A cell is numeric when [int()] can read an integer from it: an integer,
    a bool, a finite float, or text that spells an integer. *)
Definition is_finite (f : spec_float) : bool :=
  match f with
  | S754_zero _ | S754_finite _ _ _ => true
  | S754_infinity _ | S754_nan => false
  end.

Definition numeric `{Builtins} (x : scalar) : bool :=
  match x with
  | Str s => match int_of_str s with Some _ => true | None => false end
  | Float f => is_finite f
  | Int _ | Bool _ | NpInt64 _ | NpBool _ => true
  end.

(** A dict with [str] keys, in insertion order. *)
Definition dict : Type := list (string * pyval).

Fixpoint dict_get (d : dict) (k : string) : option pyval :=
  match d with
  | [] => None
  | (k', v) :: d' => if String.eqb k' k then Some v else dict_get d' k
  end.

Definition keys (d : dict) : list string := map fst d.

End Py.

Import Py.

Declare Scope py_scope.
Delimit Scope py_scope with py.
Notation "x <- c ;; k" := (bind c (fun x => k))
  (at level 61, c at next level, right associativity) : py_scope.
Local Open Scope py_scope.

(* ====================================================================== *)
(** ** pandas: tables, rows, missing values *)
(* ====================================================================== *)

Module Pandas.

(** A row as [iterrows] yields it: the column labels paired with the cells
    of the row. *)
Definition Series : Type := list (string * scalar).

(** A parsed table: the column labels of the header (pandas makes them
    distinct) and the rows, each a list of cells in column order. *)
Record DataFrame : Type := {
  columns : list string;
  data : list (list scalar)
}.

(** The dtypes [pd.read_csv] gives a column. *)
Inductive dtype : Type :=
| int64
| float64
| bool_
| object.

(** The dtype under which a cell is stored: text makes a column [object];
    a table that was read from a file stores integers as [Int], floats
    (the missing marker among them) as [Float] and booleans as [Bool]. *)
Definition dtype_of (x : scalar) : dtype :=
  match x with
  | Str _ => object
  | Int _ | NpInt64 _ => int64
  | Float _ => float64
  | Bool _ | NpBool _ => bool_
  end.

(** [find_common_type]: [object] absorbs everything, booleans only go with
    booleans, integers next to floats become floats. *)
Definition common_type (a b : dtype) : dtype :=
  match a, b with
  | object, _ | _, object => object
  | bool_, bool_ => bool_
  | bool_, _ | _, bool_ => object
  | int64, int64 => int64
  | _, _ => float64
  end.

(** The dtype of [df.values], the array the rows are cut from: the common
    type of all columns, that is, of all cells ([object] is what an array
    without cells is given here; it has no rows to coerce). *)
Definition values_dtype (df : DataFrame) : dtype :=
  match List.concat (data df) with
  | [] => object
  | x :: cells => fold_left common_type (map dtype_of cells) (dtype_of x)
  end.

(** [float(z)], rounded to the nearest double. *)
Definition float_of_Z (z : Z) : spec_float :=
  binary_normalize 53 1024 z 0 false.

(** A cell as it comes out of an array of the given dtype: an [object]
    array holds Python objects, an [int64] or [bool_] array yields numpy
    scalars, a [float64] array holds every number as a float. *)
Definition coerce (t : dtype) (x : scalar) : scalar :=
  match t, x with
  | object, NpInt64 z => Int z
  | object, NpBool b => Bool b
  | int64, Int z => NpInt64 z
  | bool_, Bool b => NpBool b
  | float64, Int z | float64, NpInt64 z => Float (float_of_Z z)
  | _, _ => x
  end.

Definition coerce_row (t : dtype) (row : Series) : Series :=
  map (fun lx => (fst lx, coerce t (snd lx))) row.

(** The rows as the table stores them, each cell under its label. *)
Definition stored_rows (df : DataFrame) : list Series :=
  map (combine (columns df)) (data df).

(** [df.iterrows()], without the index labels that the script discards:
    every row is a slice of [df.values], so its cells are coerced to the
    one dtype of that array, which depends on all columns of the table. *)
Definition iterrows (df : DataFrame) : list Series :=
  map (coerce_row (values_dtype df)) (stored_rows df).

(** [row[label]]. *)
Fixpoint getitem (row : Series) (label : string) : outcome scalar :=
  match row with
  | [] => Raise (KeyError label)
  | (l, c) :: row' => if String.eqb l label then OK c else getitem row' label
  end.

(** [pd.isna(x)] on a scalar: true on the float NaN only. *)
Definition isna (x : scalar) : bool :=
  match x with
  | Float S754_nan => true
  | _ => false
  end.

(** The missing-value marker. *)
Definition NaN : scalar := Float S754_nan.

End Pandas.

Import Pandas.

(* ====================================================================== *)
(** ** json: the encoder behind [json.dump] *)
(* ====================================================================== *)

(** The encoder is the pure-Python one ([json.dump] calls [iterencode]
    without [_one_shot]), restricted to the shape the script dumps: a list
    of dicts whose values are not containers.  With [ensure_ascii=False]
    strings go through [encode_basestring]; with [indent=2] the item
    separator is a comma followed by a line break and the indentation. *)
Module Json.

(** A generator of text chunks: it stops, yields a chunk and goes on, or
    raises. *)
Inductive gen : Type :=
| Stop
| Yield (chunk : string) (rest : gen)
| Throw (e : exn).

(** [yield from g1] followed by the statements [g2]. *)
Fixpoint seq (g1 g2 : gen) : gen :=
  match g1 with
  | Stop => g2
  | Yield c r => Yield c (seq r g2)
  | Throw e => Throw e
  end.

Definition dquote : string := String (ascii_of_nat 34) "".
Definition nl : string := String (ascii_of_nat 10) "".

Fixpoint spaces (n : nat) : string :=
  match n with
  | O => ""
  | S n' => String " " (spaces n')
  end.

Definition hex_digit (n : nat) : ascii :=
  nth n ["0"; "1"; "2"; "3"; "4"; "5"; "6"; "7"; "8"; "9";
         "a"; "b"; "c"; "d"; "e"; "f"]%char "0"%char.

(** [ESCAPE_DCT] applied to the characters [ESCAPE] matches, the identity
    on every other character: the backslash, the double quote and the
    control characters below 0x20 are escaped, nothing else is. *)
Definition escape (c : ascii) : string :=
  let n := nat_of_ascii c in
  if Nat.eqb n 92 then "\\"
  else if Nat.eqb n 34 then "\" ++ dquote
  else if Nat.eqb n 8 then "\b"
  else if Nat.eqb n 12 then "\f"
  else if Nat.eqb n 10 then "\n"
  else if Nat.eqb n 13 then "\r"
  else if Nat.eqb n 9 then "\t"
  else if Nat.ltb n 32 then
    "\u00" ++ String (hex_digit (n / 16)) (String (hex_digit (n mod 16)) "")
  else String c "".

Fixpoint escape_all (s : string) : string :=
  match s with
  | EmptyString => ""
  | String c s' => escape c ++ escape_all s'
  end.

(** [encode_basestring], the string encoder chosen by [ensure_ascii=False]. *)
Definition encode_basestring (s : string) : string :=
  dquote ++ escape_all s ++ dquote.

(** [int.__repr__]. *)
Definition intstr (z : Z) : string := NilZero.string_of_int (Z.to_int z).

(** [floatstr] with the default [allow_nan=True]. *)
Definition floatstr `{Builtins} (f : spec_float) : string :=
  match f with
  | S754_nan => "NaN"
  | S754_infinity false => "Infinity"
  | S754_infinity true => "-Infinity"
  | _ => float_repr f
  end.

(** The encoding of a value that is not a container.  An object that is
    none of [str], [None], [True], [False], [int], [float] goes to
    [_iterencode], whose [_default] raises [TypeError] before any chunk. *)
Definition iterencode_value `{Builtins} (value : pyval) : gen :=
  match value with
  | Py (Str s) => Yield (encode_basestring s) Stop
  | PyNone => Yield "null" Stop
  | Py (Bool true) => Yield "true" Stop
  | Py (Bool false) => Yield "false" Stop
  | Py (Int z) => Yield (intstr z) Stop
  | Py (Float f) => Yield (floatstr f) Stop
  | Py (NpInt64 _) | Py (NpBool _) => Throw TypeError
  end.

Definition key_separator : string := ": ".

(** With an indent the item separator is a bare comma. *)
Definition comma : string := ",".

(** The loop of [_iterencode_dict] over [dct.items()]. *)
Fixpoint iterencode_items `{Builtins} (items : dict) (first : bool)
    (item_separator : string) : gen :=
  match items with
  | [] => Stop
  | (key, value) :: items' =>
      seq (if first then Stop else Yield item_separator Stop)
        (Yield (encode_basestring key)
          (Yield key_separator
            (seq (iterencode_value value)
                 (iterencode_items items' false item_separator))))
  end.

(** [_iterencode_dict(dct, _current_indent_level)]. *)
Definition iterencode_dict `{Builtins} (indent : nat) (dct : dict)
    (current_indent_level : nat) : gen :=
  match dct with
  | [] => Yield "{}" Stop
  | _ =>
      let level := S current_indent_level in
      let newline_indent := nl ++ spaces (indent * level) in
      let item_separator := comma ++ newline_indent in
      Yield "{"
        (Yield newline_indent
          (seq (iterencode_items dct true item_separator)
            (Yield (nl ++ spaces (indent * current_indent_level))
              (Yield "}" Stop))))
  end.

(** The loop of [_iterencode_list] over a list of dicts: [buf] is yielded
    before each element, and is the separator from the second one on. *)
Fixpoint iterencode_elems `{Builtins} (indent : nat) (lst : list dict)
    (buf separator : string) (level : nat) : gen :=
  match lst with
  | [] => Stop
  | value :: lst' =>
      Yield buf
        (seq (iterencode_dict indent value level)
             (iterencode_elems indent lst' separator separator level))
  end.

(** [_iterencode_list(lst, _current_indent_level)]. *)
Definition iterencode_list `{Builtins} (indent : nat) (lst : list dict)
    (current_indent_level : nat) : gen :=
  match lst with
  | [] => Yield "[]" Stop
  | _ =>
      let level := S current_indent_level in
      let newline_indent := nl ++ spaces (indent * level) in
      let separator := comma ++ newline_indent in
      seq (iterencode_elems indent lst ("[" ++ newline_indent) separator level)
        (Yield (nl ++ spaces (indent * current_indent_level))
          (Yield "]" Stop))
  end.

(** [for chunk in iterable: fp.write(chunk)]: the text of the file after
    the loop, and the exception that ended it, if any. *)
Fixpoint write_chunks (g : gen) (text : string) : string * option exn :=
  match g with
  | Stop => (text, None)
  | Yield chunk rest => write_chunks rest (text ++ chunk)
  | Throw e => (text, Some e)
  end.

(** [json.dump(obj, fp, ensure_ascii=False, indent=indent)] on a file whose
    text so far is [text]. *)
Definition dump `{Builtins} (obj : list dict) (indent : nat) (text : string)
    : string * option exn :=
  write_chunks (iterencode_list indent obj 0) text.

(** What a consumer of the generator gets: the chunks it yields, joined,
    and the exception it ends with, if any. *)
Fixpoint gen_text (g : gen) : string :=
  match g with
  | Stop => ""
  | Yield chunk rest => chunk ++ gen_text rest
  | Throw _ => ""
  end.

Fixpoint gen_exn (g : gen) : option exn :=
  match g with
  | Stop => None
  | Yield _ rest => gen_exn rest
  | Throw e => Some e
  end.

(** The values the encoder accepts. *)
Definition serializable (v : pyval) : bool :=
  match v with
  | Py (NpInt64 _) | Py (NpBool _) => false
  | _ => true
  end.

Definition serializable_dict (d : dict) : bool :=
  forallb (fun kv => serializable (snd kv)) d.

End Json.

Import Json.

(* ====================================================================== *)
(** ** The script *)
(* ====================================================================== *)

Module Script.

Definition file_path : string :=
  "Korean vocabulary list 6000 TOPIK final release v1.csv".

Definition out_path : string := "topik_vocab.json".

(** The two files the script touches: the table that [pd.read_csv] parses
    from the file at [file_path] ([None] when there is no such file) and
    the text of the file at [out_path] ([None] when there is no such
    file). *)
Record World : Type := {
  csv_file : option DataFrame;
  json_file : option string
}.

(** [pd.read_csv(file_path)]. *)
Definition read_csv (w : World) : outcome DataFrame :=
  match csv_file w with
  | None => Raise FileNotFoundError
  | Some df => OK df
  end.

(** The dict display of the loop body; keys and values are evaluated in
    source order, so the first failing lookup or conversion decides the
    exception. *)
Definition entry `{Builtins} (row : Series) : outcome dict :=
  korean <- getitem row "Word" ;;
  en <- getitem row "English" ;;
  tested <- getitem row "Hanja/Ref." ;;
  hanja <- (if isna tested then OK PyNone
            else raw <- getitem row "Hanja/Ref." ;; OK (Py raw)) ;;
  classification <- getitem row "Classification" ;;
  rank <- getitem row "Frequency Rank" ;;
  frequency <- int rank ;;
  complexity <- getitem row "Complexity" ;;
  wordreferencelink <- getitem row "Wordreference Link" ;;
  wiktionarylink <- getitem row "Wiktionary Link" ;;
  OK [ ("korean", Py korean);
       ("en", Py en);
       ("zh", PyNone);
       ("hanja", hanja);
       ("classification", Py classification);
       ("frequency", Py (Int frequency));
       ("complexity", Py complexity);
       ("wordreferencelink", Py wordreferencelink);
       ("wiktionarylink", Py wiktionarylink) ].

(** [for _, row in df.iterrows(): ... result.append(entry)], from the
    current [result]. *)
Fixpoint loop `{Builtins} (rows : list Series) (result : list dict)
    : outcome (list dict) :=
  match rows with
  | [] => OK result
  | row :: rows' => e <- entry row ;; loop rows' (result ++ [e])%list
  end.

(** [with open("topik_vocab.json", "w", encoding="utf-8") as f:
       json.dump(result, f, ensure_ascii=False, indent=2)]:
    opening truncates the file, the chunks are written as they come, and
    the file is closed with what was written also when the dump raises. *)
Definition write_json `{Builtins} (result : list dict) (w : World)
    : World * option exn :=
  let (text, err) := dump result 2 "" in
  ({| csv_file := csv_file w; json_file := Some text |}, err).

(** The whole script: the final state of the two files, and the exception
    the run ended with ([None] for a normal exit). *)
Definition main `{Builtins} (w : World) : World * option exn :=
  match read_csv w with
  | Raise e => (w, Some e)
  | OK df =>
      match loop (iterrows df) [] with
      | Raise e => (w, Some e)
      | OK result => write_json result w
      end
  end.

End Script.

Import Script.

(* ====================================================================== *)
(** ** JSON: what counts as a JSON text *)
(* ====================================================================== *)

(** The grammar of RFC 8259 as a recogniser that reads a text one
    character at a time: a mode says what may come next, a stack says
    which arrays and objects are open.  Numbers have an automaton of their
    own. *)
Module Grammar.

(** An open array or object. *)
Inductive container : Type := InArray | InObject.

(** Where a number stands: at its start, after the minus sign, after a
    leading zero, in the digits of the integer part, after the point, in
    the digits of the fraction, after the exponent mark, after the sign of
    the exponent, in the digits of the exponent. *)
Inductive nstate : Type :=
| NStart | NMinus | NZero | NInt | NDot | NFrac | NE | NESign | NExp.

Definition code (c : ascii) : nat := nat_of_ascii c.

Definition is_ws (c : ascii) : bool :=
  Nat.eqb (code c) 32 || Nat.eqb (code c) 9 || Nat.eqb (code c) 10
  || Nat.eqb (code c) 13.

Definition is_digit (c : ascii) : bool :=
  Nat.leb 48 (code c) && Nat.leb (code c) 57.

Definition is_digit19 (c : ascii) : bool :=
  Nat.leb 49 (code c) && Nat.leb (code c) 57.

Definition is_hex (c : ascii) : bool :=
  is_digit c || (Nat.leb 97 (code c) && Nat.leb (code c) 102)
  || (Nat.leb 65 (code c) && Nat.leb (code c) 70).

Definition is_e (c : ascii) : bool :=
  Nat.eqb (code c) 101 || Nat.eqb (code c) 69.

(** One character of
    number = [ minus ] int [ frac ] [ exp ],
    int = zero / ( digit1-9 *DIGIT ), frac = point 1*DIGIT,
    exp = e [ minus / plus ] 1*DIGIT. *)
Definition nstep (n : nstate) (c : ascii) : option nstate :=
  match n with
  | NStart =>
      if Nat.eqb (code c) 45 then Some NMinus
      else if Nat.eqb (code c) 48 then Some NZero
      else if is_digit19 c then Some NInt
      else None
  | NMinus =>
      if Nat.eqb (code c) 48 then Some NZero
      else if is_digit19 c then Some NInt
      else None
  | NZero =>
      if Nat.eqb (code c) 46 then Some NDot
      else if is_e c then Some NE
      else None
  | NInt =>
      if is_digit c then Some NInt
      else if Nat.eqb (code c) 46 then Some NDot
      else if is_e c then Some NE
      else None
  | NDot => if is_digit c then Some NFrac else None
  | NFrac =>
      if is_digit c then Some NFrac
      else if is_e c then Some NE
      else None
  | NE =>
      if Nat.eqb (code c) 43 || Nat.eqb (code c) 45 then Some NESign
      else if is_digit c then Some NExp
      else None
  | NESign => if is_digit c then Some NExp else None
  | NExp => if is_digit c then Some NExp else None
  end.

(** The states in which a number may end. *)
Definition naccept (n : nstate) : bool :=
  match n with
  | NZero | NInt | NFrac | NExp => true
  | _ => false
  end.

Fixpoint nrun (s : string) (n : nstate) : option nstate :=
  match s with
  | EmptyString => Some n
  | String c s' =>
      match nstep n c with
      | Some n' => nrun s' n'
      | None => None
      end
  end.

Definition is_number (s : string) : bool :=
  match nrun s NStart with
  | Some n => naccept n
  | None => false
  end.

(** What the recogniser expects: a value; a value or the end of an array
    just opened; a member name or the end of an object just opened; a
    member name; the colon after a name; the rest of a string (a member
    name or a value), of an escape, of the four hexadecimal digits of a
    unicode escape, of a literal, of a number; or what follows a complete
    value. *)
Inductive mode : Type :=
| Value
| ValueOrClose
| KeyOrClose
| Key
| Colon
| InString (key : bool)
| Escape (key : bool)
| Hex (key : bool) (more : nat)
| Literal (rest : string)
| Number (n : nstate)
| After.

Definition state : Type := (mode * list container)%type.

(** A closing bracket must match the innermost open container. *)
Definition close (c : container) (stack : list container) : option state :=
  match c, stack with
  | InArray, InArray :: below => Some (After, below)
  | InObject, InObject :: below => Some (After, below)
  | _, _ => None
  end.

(** After a complete value: white space, a comma inside a container, or
    the closing bracket of the container. *)
Definition after (stack : list container) (c : ascii) : option state :=
  if is_ws c then Some (After, stack)
  else if Nat.eqb (code c) 44 then
    match stack with
    | InArray :: _ => Some (Value, stack)
    | InObject :: _ => Some (Key, stack)
    | [] => None
    end
  else if Nat.eqb (code c) 93 then close InArray stack
  else if Nat.eqb (code c) 125 then close InObject stack
  else None.

(** The first character of a value. *)
Definition value (stack : list container) (c : ascii) : option state :=
  if Nat.eqb (code c) 34 then Some (InString false, stack)
  else if Nat.eqb (code c) 123 then Some (KeyOrClose, InObject :: stack)
  else if Nat.eqb (code c) 91 then Some (ValueOrClose, InArray :: stack)
  else if Nat.eqb (code c) 116 then Some (Literal "rue", stack)
  else if Nat.eqb (code c) 102 then Some (Literal "alse", stack)
  else if Nat.eqb (code c) 110 then Some (Literal "ull", stack)
  else match nstep NStart c with
       | Some n => Some (Number n, stack)
       | None => None
       end.

(** The characters that may follow a backslash, besides the u of a
    unicode escape: quotation mark, backslash, slash, b, f, n, r, t. *)
Definition is_escape (c : ascii) : bool :=
  existsb (Nat.eqb (code c)) [34; 92; 47; 98; 102; 110; 114; 116].

Definition step (st : state) (c : ascii) : option state :=
  let (m, stack) := st in
  match m with
  | Value => if is_ws c then Some st else value stack c
  | ValueOrClose =>
      if is_ws c then Some st
      else if Nat.eqb (code c) 93 then close InArray stack
      else value stack c
  | KeyOrClose =>
      if is_ws c then Some st
      else if Nat.eqb (code c) 125 then close InObject stack
      else if Nat.eqb (code c) 34 then Some (InString true, stack)
      else None
  | Key =>
      if is_ws c then Some st
      else if Nat.eqb (code c) 34 then Some (InString true, stack)
      else None
  | Colon =>
      if is_ws c then Some st
      else if Nat.eqb (code c) 58 then Some (Value, stack)
      else None
  | InString key =>
      if Nat.eqb (code c) 34 then Some (if key then Colon else After, stack)
      else if Nat.eqb (code c) 92 then Some (Escape key, stack)
      else if Nat.ltb (code c) 32 then None
      else Some st
  | Escape key =>
      if is_escape c then Some (InString key, stack)
      else if Nat.eqb (code c) 117 then Some (Hex key 3, stack)
      else None
  | Hex key more =>
      if is_hex c then
        Some (match more with
              | O => InString key
              | S m' => Hex key m'
              end, stack)
      else None
  | Literal rest =>
      match rest with
      | String r rest' =>
          if Ascii.eqb c r then
            Some (match rest' with
                  | EmptyString => After
                  | _ => Literal rest'
                  end, stack)
          else None
      | EmptyString => None
      end
  | Number n =>
      match nstep n c with
      | Some n' => Some (Number n', stack)
      | None => if naccept n then after stack c else None
      end
  | After => after stack c
  end.

Fixpoint run (s : string) (st : state) : option state :=
  match s with
  | EmptyString => Some st
  | String c s' =>
      match step st c with
      | Some st' => run s' st'
      | None => None
      end
  end.

(** JSON-text = ws value ws: the text is read to its end, every container
    is closed, and one value is complete. *)
Definition is_json (s : string) : bool :=
  match run s (Value, []) with
  | Some (After, []) => true
  | Some (Number n, []) => naccept n
  | _ => false
  end.

(** The characters that follow a value in the layout of [json.dump]: a
    comma or a line break. *)
Definition ends_value (c : ascii) : bool :=
  Nat.eqb (code c) 44 || Nat.eqb (code c) 10.

(** A text that reads as one complete value wherever a value may stand. *)
Definition value_text (t : string) : Prop :=
  forall stack c r,
    ends_value c = true ->
    run (t ++ String c r) (Value, stack) = run (String c r) (After, stack).

(** A member name written between quotation marks as it is. *)
Definition key_text (k : string) : Prop :=
  forall stack r,
    run (dquote ++ k ++ dquote ++ r) (Key, stack) = run r (Colon, stack) /\
    run (dquote ++ k ++ dquote ++ r) (KeyOrClose, stack)
    = run r (Colon, stack).

End Grammar.

(* ====================================================================== *)
(** ** The claims of the specification, in its own words *)
(* ====================================================================== *)

Module Spec.

(** The eight recognised columns, in the order the script reads them. *)
Definition expected_columns : list string :=
  [ "Word"; "English"; "Hanja/Ref."; "Classification"; "Frequency Rank";
    "Complexity"; "Wordreference Link"; "Wiktionary Link" ].

(** The keys of an output record, in the order of the specification. *)
Definition key_order : list string :=
  [ "korean"; "en"; "zh"; "hanja"; "classification"; "frequency";
    "complexity"; "wordreferencelink"; "wiktionarylink" ].

(** The columns that are passed through, each with its output key. *)
Definition passthrough : list (string * string) :=
  [ ("Word", "korean"); ("English", "en");
    ("Classification", "classification"); ("Complexity", "complexity");
    ("Wordreference Link", "wordreferencelink");
    ("Wiktionary Link", "wiktionarylink") ].

(** Two rows agree on the recognised columns. *)
Definition agree (r1 r2 : Series) : Prop :=
  forall c, In c expected_columns -> getitem r1 c = getitem r2 c.

(** A row has a given column. *)
Definition has_column (row : Series) (c : string) : bool :=
  match getitem row c with
  | OK _ => true
  | Raise _ => false
  end.

(** A row has every recognised column. *)
Definition complete (row : Series) : bool :=
  forallb (has_column row) expected_columns.

(** A row lacks one of the recognised columns. *)
Definition incomplete (row : Series) : bool := negb (complete row).

(** A row's [Frequency Rank] is present and not numeric. *)
Definition rank_non_numeric `{Builtins} (row : Series) : bool :=
  match getitem row "Frequency Rank" with
  | OK x => negb (numeric x)
  | Raise _ => false
  end.

(** The JSON text of a value that is not a container. *)
Definition token `{Builtins} (v : pyval) : string :=
  match v with
  | PyNone => "null"
  | Py (Bool true) => "true"
  | Py (Bool false) => "false"
  | Py (Int z) => intstr z
  | Py (Float f) => floatstr f
  | Py (Str s) => dquote ++ escape_all s ++ dquote
  | Py (NpInt64 _) | Py (NpBool _) => ""
  end.

(** One member of an object: the key in double quotes, a colon and a
    space, the value. *)
Definition member `{Builtins} (kv : string * pyval) : string :=
  dquote ++ fst kv ++ dquote ++ ": " ++ token (snd kv).

(** An object of the array: its members one per line at four spaces, in
    the order of the dict, the closing brace at two spaces. *)
Definition render_object `{Builtins} (d : dict) : string :=
  "{" ++ nl ++ "    "
      ++ String.concat ("," ++ nl ++ "    ") (map member d)
      ++ nl ++ "  }".

(** The array: its objects at two spaces, separated by a comma and a line
    break; the empty array is a pair of brackets. *)
Definition render_array `{Builtins} (l : list dict) : string :=
  match l with
  | [] => "[]"
  | _ => "[" ++ nl ++ "  "
             ++ String.concat ("," ++ nl ++ "  ") (map render_object l)
             ++ nl ++ "]"
  end.

(** A key that the string encoder leaves as it is. *)
Definition plain (k : string) : bool := String.eqb (escape_all k) k.

(** The run ends with an exception of a given kind. *)
Definition fails_with `{Builtins} (kind : exn -> bool) (w : World) : Prop :=
  exists e, snd (main w) = Some e /\ kind e = true.

Definition is_file_not_found (e : exn) : bool :=
  match e with
  | FileNotFoundError => true
  | _ => false
  end.

(** The second half of C2 as it is worded: whenever some row has a
    non-numeric [Frequency Rank], the run fails with a type-conversion
    error and leaves the files as they were. *)
Definition non_numeric_rank_is_conversion_error `{Builtins} (w : World)
    : Prop :=
  forall df row,
    csv_file w = Some df -> In row (iterrows df) ->
    rank_non_numeric row = true ->
    exists e, main w = (w, Some e) /\ is_conversion_error e = true.

(** C4 as it is worded: every row is mapped and the file holds the whole
    array, or the output file is as it was before the run. *)
Definition all_or_nothing `{Builtins} (w : World) : Prop :=
  (snd (main w) = None /\
   exists df result,
     csv_file w = Some df /\ loop (iterrows df) [] = OK result /\
     json_file (fst (main w)) = Some (render_array result))
  \/ json_file (fst (main w)) = json_file w.

(** C5 as it is worded: each kind of failure happens exactly under its
    condition. *)
Definition error_taxonomy `{Builtins} (w : World) : Prop :=
  (fails_with is_file_not_found w <-> csv_file w = None) /\
  (fails_with is_key_error w <->
     exists df, csv_file w = Some df /\
                existsb incomplete (iterrows df) = true) /\
  (fails_with is_conversion_error w <->
     exists df, csv_file w = Some df /\
                existsb rank_non_numeric (iterrows df) = true).

(** The columns whose cells go into a record as they are. *)
Definition copied_columns : list string :=
  [ "Word"; "English"; "Hanja/Ref."; "Classification"; "Complexity";
    "Wordreference Link"; "Wiktionary Link" ].

(** The cell of a column, if the row has it, is one the encoder accepts. *)
Definition encodable (row : Series) (c : string) : bool :=
  match getitem row c with
  | OK x => serializable (Py x)
  | Raise _ => true
  end.

(** Every cell that is copied into the record can be dumped. *)
Definition json_ready (row : Series) : bool :=
  forallb (encodable row) copied_columns.

(** A row has the eight columns and a numeric rank. *)
Definition mappable `{Builtins} (row : Series) : bool :=
  complete row && negb (rank_non_numeric row).

(** The number of line breaks of a text. *)
Fixpoint count_nl (s : string) : nat :=
  match s with
  | EmptyString => 0
  | String c s' => (if Nat.eqb (nat_of_ascii c) 10 then 1 else 0) + count_nl s'
  end.

(** The labels of a row, in column order. *)
Definition labels (row : Series) : list string := map fst row.

(** The first of the given columns that the row lacks. *)
Definition first_missing (row : Series) (cols : list string) : option string :=
  find (fun c => negb (has_column row c)) cols.

(** The recognised columns in the order of the dict display, split at the
    conversion of the rank. *)
Definition read_before_rank : list string :=
  [ "Word"; "English"; "Hanja/Ref."; "Classification"; "Frequency Rank" ].

Definition read_after_rank : list string :=
  [ "Complexity"; "Wordreference Link"; "Wiktionary Link" ].

(** The exception a row is expected to end with, if any: the missing-field
    error of the first column it lacks up to the rank; else the
    type-conversion error of the rank; else the missing-field error of the
    first column it lacks after the rank. *)
Definition first_failure `{Builtins} (row : Series) : option exn :=
  match first_missing row read_before_rank with
  | Some c => Some (KeyError c)
  | None =>
      match getitem row "Frequency Rank" with
      | Raise e => Some e
      | OK rank =>
          match int rank with
          | Raise e => Some e
          | OK _ => option_map KeyError (first_missing row read_after_rank)
          end
      end
  end.

(** A value that JSON has: not a NaN, not an infinity, and nothing the
    encoder rejects. *)
Definition json_value (v : pyval) : bool :=
  match v with
  | Py (Float f) => is_finite f
  | Py (NpInt64 _) | Py (NpBool _) => false
  | _ => true
  end.

Definition json_record (d : dict) : bool :=
  forallb (fun kv => json_value (snd kv)) d.

(** C7 as it is worded: after a successful run the output file is a JSON
    text. *)
Definition successful_output_is_json `{Builtins} (w : World) : Prop :=
  forall w',
    main w = (w', None) ->
    exists text, json_file w' = Some text /\ Grammar.is_json text = true.

(** A recognised column of the row holds text. *)
Definition holds_text (row : Series) (c : string) : bool :=
  match getitem row c with
  | OK (Str _) => true
  | _ => false
  end.

(** Some recognised column of the table holds text in some row. *)
Definition has_text (df : DataFrame) : bool :=
  existsb (fun row => existsb (holds_text row) expected_columns)
          (stored_rows df).

(** C9 as it is worded: tables that agree row by row on the eight
    recognised columns give equal record collections. *)
Definition recognised_columns_decide `{Builtins} (df1 df2 : DataFrame)
    : Prop :=
  Forall2 agree (stored_rows df1) (stored_rows df2) ->
  loop (iterrows df1) [] = loop (iterrows df2) [].

End Spec.

Import Spec.

(** Concrete tables to run the model on, with a reading of [int()] on
    ASCII decimal text and a placeholder for [float.__repr__] (the tables
    below hold no finite float). *)
Module Demo.

Fixpoint digits (s : string) (acc : Z) : option Z :=
  match s with
  | EmptyString => Some acc
  | String c s' =>
      let n := nat_of_ascii c in
      if andb (Nat.leb 48 n) (Nat.leb n 57)
      then digits s' (10 * acc + Z.of_nat (n - 48))%Z
      else None
  end.

Definition ascii_int (s : string) : option Z :=
  match s with
  | EmptyString => None
  | String "-" s' => match s' with
                     | EmptyString => None
                     | _ => option_map Z.opp (digits s' 0%Z)
                     end
  | _ => digits s 0%Z
  end.

#[export] Instance builtins : Builtins := {
  int_of_str := ascii_int;
  float_repr := fun _ => "0.0"
}.

(** A table with the eight columns: the scenario rows of the
    specification, the first without hanja, the second with hanja and
    without a Wordreference link. *)
Definition vocabulary : DataFrame := {|
  columns := expected_columns;
  data :=
    [ [ Str "안녕"; Str "hello"; NaN; Str "greeting"; Int 1; Str "A1";
        Str "http://x"; Str "http://y" ];
      [ Str "안녕"; Str "peace"; Str "安寧"; Str "noun"; Int 2; Str "B1";
        NaN; Str "http://z" ] ]
|}.

Definition first_record : dict :=
  [ ("korean", Py (Str "안녕")); ("en", Py (Str "hello")); ("zh", PyNone);
    ("hanja", PyNone); ("classification", Py (Str "greeting"));
    ("frequency", Py (Int 1)); ("complexity", Py (Str "A1"));
    ("wordreferencelink", Py (Str "http://x"));
    ("wiktionarylink", Py (Str "http://y")) ].

Definition second_record : dict :=
  [ ("korean", Py (Str "안녕")); ("en", Py (Str "peace")); ("zh", PyNone);
    ("hanja", Py (Str "安寧")); ("classification", Py (Str "noun"));
    ("frequency", Py (Int 2)); ("complexity", Py (Str "B1"));
    ("wordreferencelink", Py NaN);
    ("wiktionarylink", Py (Str "http://z")) ].

Definition second_row : Series :=
  combine expected_columns
    [ Str "안녕"; Str "peace"; Str "安寧"; Str "noun"; Int 2; Str "B1";
      NaN; Str "http://z" ].

Definition world : World :=
  {| csv_file := Some vocabulary; json_file := None |}.

(** The same rows with a column the script does not read. *)
Definition annotated : DataFrame := {|
  columns := "Notes" :: expected_columns;
  data :=
    [ [ Str "checked"; Str "안녕"; Str "hello"; NaN; Str "greeting"; Int 1;
        Str "A1"; Str "http://x"; Str "http://y" ];
      [ NaN; Str "안녕"; Str "peace"; Str "安寧"; Str "noun"; Int 2;
        Str "B1"; NaN; Str "http://z" ] ]
|}.

(** The first scenario row alone, and the text the specification gives
    for it, laid out by [json.dump]. *)
Definition scenario : DataFrame := {|
  columns := expected_columns;
  data := [ [ Str "안녕"; Str "hello"; NaN; Str "greeting"; Int 1; Str "A1";
              Str "http://x"; Str "http://y" ] ]
|}.

Definition quoted (s : string) : string := dquote ++ s ++ dquote.

Definition scenario_text : string :=
  "[" ++ nl ++
  "  {" ++ nl ++
  "    " ++ quoted "korean" ++ ": " ++ quoted "안녕" ++ "," ++ nl ++
  "    " ++ quoted "en" ++ ": " ++ quoted "hello" ++ "," ++ nl ++
  "    " ++ quoted "zh" ++ ": null," ++ nl ++
  "    " ++ quoted "hanja" ++ ": null," ++ nl ++
  "    " ++ quoted "classification" ++ ": " ++ quoted "greeting" ++ ","
         ++ nl ++
  "    " ++ quoted "frequency" ++ ": 1," ++ nl ++
  "    " ++ quoted "complexity" ++ ": " ++ quoted "A1" ++ "," ++ nl ++
  "    " ++ quoted "wordreferencelink" ++ ": " ++ quoted "http://x" ++ ","
         ++ nl ++
  "    " ++ quoted "wiktionarylink" ++ ": " ++ quoted "http://y" ++ nl ++
  "  }" ++ nl ++
  "]".

(** A header without data rows. *)
Definition header_only : DataFrame :=
  {| columns := expected_columns; data := [] |}.

(** All eight columns, the rank of the second row spelled out in words. *)
Definition spelled_rank : DataFrame := {|
  columns := expected_columns;
  data :=
    [ [ Str "안녕"; Str "hello"; NaN; Str "greeting"; Str "12"; Str "A1";
        Str "http://x"; Str "http://y" ];
      [ Str "안녕"; Str "peace"; Str "安寧"; Str "noun"; Str "twelve";
        Str "B1"; Str "http://w"; Str "http://z" ] ]
|}.

(** No [Word] column, and an empty rank. *)
Definition no_word_row : list scalar :=
  [ Str "hello"; NaN; Str "greeting"; NaN; Str "A1"; Str "http://x";
    Str "http://y" ].

Definition no_word : DataFrame := {|
  columns := [ "English"; "Hanja/Ref."; "Classification"; "Frequency Rank";
               "Complexity"; "Wordreference Link"; "Wiktionary Link" ];
  data := [ no_word_row ]
|}.

(** No [Wiktionary Link] column, and an empty rank. *)
Definition no_wiktionary : DataFrame := {|
  columns := [ "Word"; "English"; "Hanja/Ref."; "Classification";
               "Frequency Rank"; "Complexity"; "Wordreference Link" ];
  data := [ [ Str "안녕"; Str "hello"; NaN; Str "greeting"; NaN; Str "A1";
              Str "http://x" ] ]
|}.

(** No [Wiktionary Link] column, every rank numeric. *)
Definition no_wiktionary_ranked : DataFrame := {|
  columns := [ "Word"; "English"; "Hanja/Ref."; "Classification";
               "Frequency Rank"; "Complexity"; "Wordreference Link" ];
  data := [ [ Str "안녕"; Str "hello"; NaN; Str "greeting"; Int 1; Str "A1";
              Str "http://x" ] ]
|}.

(** Eight columns of integers: every column has dtype int64, so the row
    holds numpy integers. *)
Definition all_integers : DataFrame := {|
  columns := expected_columns;
  data := [ [ Int 1; Int 2; Int 3; Int 4; Int 5; Int 6; Int 7; Int 8 ] ]
|}.

(** The same integers with a text column the script does not read: the
    rows now have dtype object and hold Python integers. *)
Definition noted_integers : DataFrame := {|
  columns := (expected_columns ++ [ "Notes" ])%list;
  data := [ [ Int 1; Int 2; Int 3; Int 4; Int 5; Int 6; Int 7; Int 8;
              Str "checked" ] ]
|}.

(** A run that starts with an output file left by an earlier run. *)
Definition earlier_output : string := "[]".

Definition with_table (df : DataFrame) : World :=
  {| csv_file := Some df; json_file := Some earlier_output |}.

(** The vocabulary table with its last column moved to the front. *)
Definition reordered : DataFrame := {|
  columns := [ "Wiktionary Link"; "Word"; "English"; "Hanja/Ref.";
               "Classification"; "Frequency Rank"; "Complexity";
               "Wordreference Link" ];
  data :=
    [ [ Str "http://y"; Str "안녕"; Str "hello"; NaN; Str "greeting"; Int 1;
        Str "A1"; Str "http://x" ];
      [ Str "http://z"; Str "안녕"; Str "peace"; Str "安寧"; Str "noun";
        Int 2; Str "B1"; NaN ] ]
|}.

(** A row whose rank is the float 2.5, and its record. *)
Definition fractional_row : Series :=
  combine expected_columns
    [ Str "안녕"; Str "hello"; NaN; Str "greeting";
      Float (S754_finite false 5 (-1)); Str "A1"; Str "http://x";
      Str "http://y" ].

Definition fractional_record : dict :=
  [ ("korean", Py (Str "안녕")); ("en", Py (Str "hello")); ("zh", PyNone);
    ("hanja", PyNone); ("classification", Py (Str "greeting"));
    ("frequency", Py (Int 2)); ("complexity", Py (Str "A1"));
    ("wordreferencelink", Py (Str "http://x"));
    ("wiktionarylink", Py (Str "http://y")) ].

End Demo.


(* ====================================================================== *)
(** ** Properties of the row mapping *)
(* ====================================================================== *)

Lemma bind_OK_inv {A B : Type} (c : outcome A) (k : A -> outcome B) (b : B) :
  bind c k = OK b -> exists a, c = OK a /\ k a = OK b.
Proof.
  destruct c as [a | e]; simpl; intros Hk; [ | discriminate ].
  exists a; split; [ reflexivity | exact Hk ].
Qed.

Lemma bind_Raise_inv {A B : Type} (c : outcome A) (k : A -> outcome B) e :
  bind c k = Raise e ->
  c = Raise e \/ exists a, c = OK a /\ k a = Raise e.
Proof.
  destruct c as [a | e']; simpl; intros Hk.
  - right; exists a; split; [ reflexivity | exact Hk ].
  - left; injection Hk as ->; reflexivity.
Qed.

(** Peels the leading bind of a successful computation. *)
Ltac bind_inv H :=
  let a := fresh "x" in
  let Ha := fresh "Hx" in
  apply bind_OK_inv in H; destruct H as (a & Ha & H).

Section Mapping.

Context `{Builtins}.

(** The shape of a record that [entry] returns. *)
Lemma entry_inv (row : Series) (d : dict) :
  entry row = OK d ->
  exists korean en h cl rank z cx wr wk,
    getitem row "Word" = OK korean /\
    getitem row "English" = OK en /\
    getitem row "Hanja/Ref." = OK h /\
    getitem row "Classification" = OK cl /\
    getitem row "Frequency Rank" = OK rank /\
    int rank = OK z /\
    getitem row "Complexity" = OK cx /\
    getitem row "Wordreference Link" = OK wr /\
    getitem row "Wiktionary Link" = OK wk /\
    d = [ ("korean", Py korean); ("en", Py en); ("zh", PyNone);
          ("hanja", if isna h then PyNone else Py h);
          ("classification", Py cl); ("frequency", Py (Int z));
          ("complexity", Py cx); ("wordreferencelink", Py wr);
          ("wiktionarylink", Py wk) ].
Proof.
  unfold entry; intros He.
  bind_inv He. bind_inv He. bind_inv He. bind_inv He. bind_inv He.
  bind_inv He. bind_inv He. bind_inv He. bind_inv He. bind_inv He.
  injection He as <-.
  exists x, x0, x1, x3, x4, x5, x6, x7, x8.
  repeat (split; [ assumption | ]).
  destruct (isna x1).
  - injection Hx2 as <-. reflexivity.
  - rewrite Hx1 in Hx2. simpl in Hx2. injection Hx2 as <-. reflexivity.
Qed.

(** A failed lookup raises [KeyError] for its label. *)
Lemma getitem_Raise (row : Series) (c : string) (e : exn) :
  getitem row c = Raise e -> e = KeyError c.
Proof.
  induction row as [ | [l x] row IH ]; simpl.
  - intros [= <-]. reflexivity.
  - destruct (String.eqb l c); [ discriminate | exact IH ].
Qed.

(** [int()] succeeds exactly on the numeric cells, and raises a
    type-conversion error on the others. *)
Lemma int_numeric (x : scalar) :
  numeric x = true -> exists z, int x = OK z.
Proof.
  destruct x as [ s | z | f | b | z | b ]; simpl; try (eexists; reflexivity).
  - destruct (int_of_str s); [ eexists; reflexivity | discriminate ].
  - destruct f; simpl; try discriminate; eexists; reflexivity.
Qed.

Lemma int_non_numeric (x : scalar) :
  numeric x = false ->
  exists e, int x = Raise e /\ is_conversion_error e = true.
Proof.
  destruct x as [ s | z | f | b | z | b ]; simpl; try discriminate.
  - destruct (int_of_str s); [ discriminate | ].
    exists ValueError; auto.
  - destruct f; simpl; try discriminate.
    + exists OverflowError; auto.
    + exists ValueError; auto.
Qed.

Lemma int_Raise (x : scalar) (e : exn) :
  int x = Raise e -> is_conversion_error e = true /\ numeric x = false.
Proof.
  intros Hi. destruct (numeric x) eqn:Hn.
  - destruct (int_numeric x Hn) as (z & Hz). congruence.
  - destruct (int_non_numeric x Hn) as (e' & He' & Hc).
    split; congruence.
Qed.

(** One lookup of [entry]: go on when it succeeds, and settle the goal
    with the missing label when it fails. *)
Ltac lookup_or_key_error row c x :=
  let Hg := fresh "Hg" in
  destruct (getitem row c) as [ x | ? ] eqn:Hg; cbn [bind];
  [ | let Hk := fresh "Hk" in
      intros [= <-]; left; exists c;
      pose proof (getitem_Raise _ _ _ Hg) as Hk; subst;
      split; [ simpl; tauto | split; [ reflexivity | assumption ] ] ].

(** When [entry] fails, a recognised column is missing from the row, or
    the [Frequency Rank] is present and is not numeric. *)
Lemma entry_Raise_inv (row : Series) (e : exn) :
  entry row = Raise e ->
  (exists c, In c expected_columns /\ e = KeyError c /\
             getitem row c = Raise (KeyError c)) \/
  (is_conversion_error e = true /\
   exists x, getitem row "Frequency Rank" = OK x /\ numeric x = false).
Proof.
  unfold entry.
  lookup_or_key_error row "Word" korean.
  lookup_or_key_error row "English" en.
  lookup_or_key_error row "Hanja/Ref." h.
  assert (Hh : (if isna h then OK PyNone else OK (Py h)) =
               OK (if isna h then PyNone else Py h))
    by (destruct (isna h); reflexivity).
  rewrite Hh; cbn [bind]; clear Hh.
  lookup_or_key_error row "Classification" cl.
  lookup_or_key_error row "Frequency Rank" rank.
  destruct (int rank) as [ z | e' ] eqn:Hi; cbn [bind].
  - lookup_or_key_error row "Complexity" cx.
    lookup_or_key_error row "Wordreference Link" wr.
    lookup_or_key_error row "Wiktionary Link" wk.
    discriminate.
  - intros [= <-]. right. apply int_Raise in Hi. destruct Hi as [Hc Hn].
    split; [ exact Hc | ]. exists rank. auto.
Qed.

(** The loop started from [acc] appends to [acc] what it appends to the
    empty list. *)
Lemma loop_acc (rows : list Series) (acc : list dict) :
  loop rows acc = es <- loop rows [] ;; OK (acc ++ es)%list.
Proof.
  revert acc; induction rows as [ | row rows IH ]; intros acc; simpl.
  - rewrite app_nil_r. reflexivity.
  - destruct (entry row) as [e | err]; simpl; [ | reflexivity ].
    rewrite (IH (acc ++ [e])%list), (IH [e]).
    destruct (loop rows []) as [es | err]; simpl; [ | reflexivity ].
    rewrite <- app_assoc. reflexivity.
Qed.

Lemma loop_cons (row : Series) (rows : list Series) :
  loop (row :: rows) [] =
  e <- entry row ;; es <- loop rows [] ;; OK (e :: es).
Proof.
  simpl. destruct (entry row) as [e | err]; simpl; [ | reflexivity ].
  apply loop_acc.
Qed.

(** The loop succeeds exactly when every row is mapped, and then its
    result lists the records of the rows, in row order. *)
Lemma loop_OK_iff (rows : list Series) (result : list dict) :
  loop rows [] = OK result <->
  Forall2 (fun row e => entry row = OK e) rows result.
Proof.
  revert result; induction rows as [ | row rows IH ]; intros result.
  - simpl; split.
    + intros [= <-]. constructor.
    + intros Hf; inversion Hf; reflexivity.
  - rewrite loop_cons; split.
    + intros Hl. bind_inv Hl. bind_inv Hl. injection Hl as <-.
      constructor; [ assumption | apply IH; assumption ].
    + intros Hf; inversion Hf as [ | ? e ? es He Hes ]; subst.
      rewrite He; simpl. apply IH in Hes. rewrite Hes. reflexivity.
Qed.

(** The loop fails exactly at the first row that [entry] fails on, with
    that row's exception. *)
Lemma loop_Raise_iff (rows : list Series) (e : exn) :
  loop rows [] = Raise e <->
  exists before row after,
    rows = (before ++ row :: after)%list /\
    Forall (fun r => exists d, entry r = OK d) before /\
    entry row = Raise e.
Proof.
  induction rows as [ | row rows IH ].
  - simpl; split; [ discriminate | ].
    intros (before & r & after & Heq & _).
    destruct before; discriminate.
  - rewrite loop_cons; split.
    + intros Hl. apply bind_Raise_inv in Hl.
      destruct Hl as [Hr | (d & Hd & Hl)].
      * exists [], row, rows. repeat split; [ constructor | assumption ].
      * apply bind_Raise_inv in Hl.
        destruct Hl as [Hr | (es & _ & Hl)]; [ | discriminate ].
        apply IH in Hr. destruct Hr as (before & r & after & -> & Hb & Hr).
        exists (row :: before), r, after.
        repeat split; [ | assumption ].
        constructor; [ exists d; assumption | assumption ].
    + intros (before & r & after & Heq & Hb & Hr).
      destruct before as [ | b before ]; simpl in Heq;
        injection Heq as -> ->.
      * rewrite Hr. reflexivity.
      * inversion Hb as [ | ? ? (d & Hd) Hb' ]; subst.
        rewrite Hd; simpl.
        assert (Hl : loop (before ++ r :: after) [] = Raise e).
        { apply IH. exists before, r, after. auto. }
        rewrite Hl. reflexivity.
Qed.

End Mapping.

Section Records.

Context `{Builtins}.

Lemma Forall2_nth_error {A B : Type} (R : A -> B -> Prop)
    (l : list A) (l' : list B) :
  Forall2 R l l' ->
  forall i a, nth_error l i = Some a ->
              exists b, nth_error l' i = Some b /\ R a b.
Proof.
  induction 1 as [ | a0 b0 l l' Hab _ IH ]; intros i a Hi.
  - destruct i; discriminate.
  - destruct i as [ | i ]; simpl in *.
    + injection Hi as <-. exists b0; auto.
    + apply IH; assumption.
Qed.

(** C1. When the loop completes, the output collection has exactly one
    record per input row, and the record at each position is the record
    mapped from the row at that position: row order is preserved. *)
Theorem one_record_per_row_in_order (df : DataFrame) (result : list dict) :
  loop (iterrows df) [] = OK result ->
  List.length result = List.length (data df) /\
  forall i row, nth_error (iterrows df) i = Some row ->
                exists e, nth_error result i = Some e /\ entry row = OK e.
Proof.
  intros Hl. apply loop_OK_iff in Hl. split.
  - apply Forall2_length in Hl. unfold iterrows, stored_rows in Hl.
    rewrite !length_map in Hl. symmetry; exact Hl.
  - apply (Forall2_nth_error _ _ _ Hl).
Qed.


(** C6. Every record of the output collection has [zh] null, whatever the
    row holds. *)
Theorem zh_always_null (rows : list Series) (result : list dict) :
  loop rows [] = OK result ->
  Forall (fun d => dict_get d "zh" = Some PyNone) result.
Proof.
  intros Hl. apply loop_OK_iff in Hl.
  induction Hl as [ | row d rows result He _ IH ]; constructor; [ | exact IH ].
  apply entry_inv in He.
  destruct He as (korean & en & h & cl & rank & z & cx & wr & wk & _ & _
                  & _ & _ & _ & _ & _ & _ & _ & ->).
  reflexivity.
Qed.

(** C10. Only [hanja] maps the missing-value marker to null.  In a
    mapped row, a marker in a passed-through column (Word, English,
    Classification, Complexity or a link column) is carried into the
    record unchanged, is not null there, and is serialised as the token
    NaN; the one remaining column, [Frequency Rank], never holds the
    marker in a mapped row, since its conversion would have failed. *)
Theorem missing_passes_through (row : Series) (d : dict) :
  entry row = OK d ->
  (forall column key cell,
      In (column, key) passthrough ->
      getitem row column = OK cell ->
      isna cell = true ->
      dict_get d key = Some (Py cell) /\
      dict_get d key <> Some PyNone /\
      iterencode_value (Py cell) = Yield "NaN" Stop) /\
  (forall rank, getitem row "Frequency Rank" = OK rank -> isna rank = false).
Proof.
  intros He. apply entry_inv in He.
  destruct He as (korean & en & h & cl & rank & z & cx & wr & wk & Hko & Hen
                  & _ & Hcl & Hrank & Hz & Hcx & Hwr & Hwk & ->).
  split.
  - intros column key cell Hin Hc Hna.
    assert (Hget : dict_get
              [ ("korean", Py korean); ("en", Py en); ("zh", PyNone);
                ("hanja", if isna h then PyNone else Py h);
                ("classification", Py cl); ("frequency", Py (Int z));
                ("complexity", Py cx); ("wordreferencelink", Py wr);
                ("wiktionarylink", Py wk) ] key = Some (Py cell)).
    { simpl in Hin.
      destruct Hin as [Hp | [Hp | [Hp | [Hp | [Hp | [Hp | []]]]]]];
        injection Hp as <- <-; simpl; congruence. }
    split; [ exact Hget | ]. split.
    + rewrite Hget. discriminate.
    + destruct cell as [ | | [ | | | ] | | | ]; try discriminate Hna.
      reflexivity.
  - intros rank' Hrank'. rewrite Hrank in Hrank'. injection Hrank' as <-.
    destruct rank as [ | | [ | | | ] | | | ]; try reflexivity.
    simpl in Hz. discriminate.
Qed.

(** Rows that agree on the recognised columns are mapped alike. *)
Lemma entry_agree (r1 r2 : Series) : agree r1 r2 -> entry r1 = entry r2.
Proof.
  intros Ha. unfold entry.
  rewrite !Ha by (simpl; tauto). reflexivity.
Qed.

Lemma loop_agree (rows1 rows2 : list Series) :
  Forall2 agree rows1 rows2 ->
  forall acc, loop rows1 acc = loop rows2 acc.
Proof.
  induction 1 as [ | r1 r2 rows1 rows2 Ha _ IH ]; intros acc; simpl.
  - reflexivity.
  - rewrite (entry_agree _ _ Ha).
    destruct (entry r2); simpl; [ apply IH | reflexivity ].
Qed.

End Records.

(* ====================================================================== *)
(** ** Properties of the encoder *)
(* ====================================================================== *)

Lemma append_assoc (a b c : string) : (a ++ b) ++ c = a ++ (b ++ c).
Proof.
  induction a as [ | x a IH ]; simpl; [ reflexivity | ].
  rewrite IH. reflexivity.
Qed.

Lemma append_empty_r (a : string) : a ++ "" = a.
Proof.
  induction a as [ | x a IH ]; simpl; [ reflexivity | ].
  rewrite IH. reflexivity.
Qed.

(** Writing the chunks of a generator appends its text to the file and
    ends with its exception. *)
Lemma write_chunks_spec (g : gen) (text : string) :
  write_chunks g text = (text ++ gen_text g, gen_exn g).
Proof.
  revert text; induction g as [ | chunk rest IH | e ]; intros text; simpl.
  - rewrite append_empty_r. reflexivity.
  - rewrite IH, append_assoc. reflexivity.
  - rewrite append_empty_r. reflexivity.
Qed.

Lemma gen_exn_seq (g1 g2 : gen) :
  gen_exn (seq g1 g2) =
  match gen_exn g1 with
  | None => gen_exn g2
  | Some e => Some e
  end.
Proof.
  induction g1 as [ | chunk rest IH | e ]; simpl; auto.
Qed.

Lemma gen_text_seq (g1 g2 : gen) :
  gen_exn g1 = None -> gen_text (seq g1 g2) = gen_text g1 ++ gen_text g2.
Proof.
  induction g1 as [ | chunk rest IH | e ]; simpl; intros Hg.
  - reflexivity.
  - rewrite IH by assumption. rewrite append_assoc. reflexivity.
  - discriminate.
Qed.

Lemma escape_non_ascii (c : ascii) :
  128 <= nat_of_ascii c -> escape c = String c "".
Proof.
  intros Hc. unfold escape.
  destruct (Nat.eqb_spec (nat_of_ascii c) 92); [ lia | ].
  destruct (Nat.eqb_spec (nat_of_ascii c) 34); [ lia | ].
  destruct (Nat.eqb_spec (nat_of_ascii c) 8); [ lia | ].
  destruct (Nat.eqb_spec (nat_of_ascii c) 12); [ lia | ].
  destruct (Nat.eqb_spec (nat_of_ascii c) 10); [ lia | ].
  destruct (Nat.eqb_spec (nat_of_ascii c) 13); [ lia | ].
  destruct (Nat.eqb_spec (nat_of_ascii c) 9); [ lia | ].
  destruct (Nat.ltb_spec (nat_of_ascii c) 32); [ lia | reflexivity ].
Qed.

Lemma escape_all_app (a b : string) :
  escape_all (a ++ b) = escape_all a ++ escape_all b.
Proof.
  induction a as [ | x a IH ]; simpl; [ reflexivity | ].
  rewrite IH, append_assoc. reflexivity.
Qed.

(** A byte of a non-ASCII character goes to the output as it is, wherever
    it stands in the text. *)
Lemma escape_all_non_ascii (a b : string) (c : ascii) :
  128 <= nat_of_ascii c ->
  escape_all (a ++ String c b) = escape_all a ++ String c (escape_all b).
Proof.
  intros Hc. rewrite escape_all_app. simpl.
  rewrite (escape_non_ascii c Hc). reflexivity.
Qed.

Section Encoder.

Context `{Builtins}.

Lemma iterencode_value_spec (v : pyval) :
  iterencode_value v =
  if serializable v then Yield (token v) Stop else Throw TypeError.
Proof.
  destruct v as [ | [ s | z | f | [ | ] | z | b ] ]; reflexivity.
Qed.

Lemma gen_exn_items (d : dict) (first : bool) (sep : string) :
  gen_exn (iterencode_items d first sep) =
  if serializable_dict d then None else Some TypeError.
Proof.
  revert first; induction d as [ | [k v] d IH ]; intros first; simpl.
  - reflexivity.
  - rewrite gen_exn_seq.
    assert (Hf : gen_exn (if first then Stop else Yield sep Stop) = None)
      by (destruct first; reflexivity).
    rewrite Hf; simpl. rewrite gen_exn_seq, iterencode_value_spec.
    destruct (serializable v); simpl; [ apply IH | reflexivity ].
Qed.

(** The members of a dict with plain keys and serialisable values, as
    the encoder writes them. *)
Lemma gen_text_items (d : dict) (first : bool) (sep : string) :
  serializable_dict d = true ->
  forallb plain (keys d) = true ->
  gen_text (iterencode_items d first sep) =
  match d with
  | [] => ""
  | _ => (if first then "" else sep) ++ String.concat sep (map member d)
  end.
Proof.
  revert first; induction d as [ | [k v] d IH ]; intros first Hs Hk.
  - reflexivity.
  - simpl in Hs, Hk.
    apply andb_true_iff in Hs; destruct Hs as [Hv Hs].
    apply andb_true_iff in Hk; destruct Hk as [Hp Hk].
    apply String.eqb_eq in Hp.
    cbn [iterencode_items].
    rewrite gen_text_seq by (destruct first; reflexivity).
    cbn [gen_text]. rewrite gen_text_seq
      by (rewrite iterencode_value_spec, Hv; reflexivity).
    rewrite iterencode_value_spec, Hv. cbn [gen_text].
    rewrite (IH false Hs Hk).
    assert (Hfirst : gen_text (if first then Stop else Yield sep Stop)
                     = if first then "" else sep).
    { destruct first; simpl; [ reflexivity | apply append_empty_r ]. }
    rewrite Hfirst. unfold encode_basestring, key_separator, member.
    rewrite Hp. cbn [fst snd].
    destruct d as [ | kv d ]; cbn [map String.concat].
    + rewrite !append_assoc, !append_empty_r. reflexivity.
    + rewrite !append_assoc. cbn [append]. reflexivity.
Qed.

Lemma gen_exn_dict (indent : nat) (d : dict) (level : nat) :
  gen_exn (iterencode_dict indent d level) =
  if serializable_dict d then None else Some TypeError.
Proof.
  destruct d as [ | kv d ]; [ reflexivity | ].
  cbn [iterencode_dict gen_exn]. rewrite gen_exn_seq, gen_exn_items.
  destruct (serializable_dict (kv :: d)); reflexivity.
Qed.

(** An object of the array, as the encoder writes it one level deep with
    an indent of two. *)
Lemma gen_text_dict (d : dict) :
  d <> [] ->
  serializable_dict d = true ->
  forallb plain (keys d) = true ->
  gen_text (iterencode_dict 2 d 1) = render_object d.
Proof.
  intros Hd Hs Hk.
  destruct d as [ | kv d ]; [ contradiction | ].
  cbn [iterencode_dict gen_text].
  rewrite gen_text_seq by (rewrite gen_exn_items, Hs; reflexivity).
  rewrite (gen_text_items _ true _ Hs Hk).
  unfold render_object, comma. cbn [gen_text Nat.mul Nat.add spaces].
  rewrite !append_assoc. reflexivity.
Qed.

End Encoder.

Section Output.

Context `{Builtins}.

Lemma gen_exn_elems (indent : nat) (l : list dict) (buf sep : string)
    (level : nat) :
  gen_exn (iterencode_elems indent l buf sep level) =
  if forallb serializable_dict l then None else Some TypeError.
Proof.
  revert buf; induction l as [ | d l IH ]; intros buf; simpl.
  - reflexivity.
  - rewrite gen_exn_seq, gen_exn_dict.
    destruct (serializable_dict d); simpl; [ apply IH | reflexivity ].
Qed.

Lemma gen_exn_list (indent : nat) (l : list dict) (level : nat) :
  gen_exn (iterencode_list indent l level) =
  if forallb serializable_dict l then None else Some TypeError.
Proof.
  destruct l as [ | d l ]; [ reflexivity | ].
  cbn [iterencode_list]. rewrite gen_exn_seq, gen_exn_elems.
  destruct (forallb serializable_dict (d :: l)); reflexivity.
Qed.

(** The keys of a record, in the order of the dict display. *)
Lemma entry_keys (row : Series) (d : dict) :
  entry row = OK d -> keys d = key_order.
Proof.
  intros He. apply entry_inv in He.
  destruct He as (korean & en & h & cl & rank & z & cx & wr & wk & _ & _
                  & _ & _ & _ & _ & _ & _ & _ & ->).
  reflexivity.
Qed.

Lemma loop_keys (rows : list Series) (result : list dict) :
  loop rows [] = OK result -> Forall (fun d => keys d = key_order) result.
Proof.
  intros Hl. apply loop_OK_iff in Hl.
  induction Hl as [ | row d rows result He _ IH ]; constructor;
    [ exact (entry_keys _ _ He) | exact IH ].
Qed.

Lemma gen_text_record (d : dict) :
  keys d = key_order ->
  serializable_dict d = true ->
  gen_text (iterencode_dict 2 d 1) = render_object d.
Proof.
  intros Hk Hs. apply gen_text_dict.
  - intros ->. discriminate Hk.
  - exact Hs.
  - rewrite Hk. reflexivity.
Qed.

Lemma gen_text_elems (l : list dict) (buf sep : string) :
  Forall (fun d => keys d = key_order) l ->
  forallb serializable_dict l = true ->
  gen_text (iterencode_elems 2 l buf sep 1) =
  match l with
  | [] => ""
  | _ => buf ++ String.concat sep (map render_object l)
  end.
Proof.
  intros Hk; revert buf; induction Hk as [ | d l Hd _ IH ]; intros buf Hs.
  - reflexivity.
  - simpl in Hs. apply andb_true_iff in Hs; destruct Hs as [Hsd Hs].
    cbn [iterencode_elems gen_text].
    rewrite gen_text_seq by (rewrite gen_exn_dict, Hsd; reflexivity).
    rewrite (gen_text_record d Hd Hsd), (IH sep Hs).
    destruct l as [ | d' l ]; cbn [map String.concat].
    + rewrite append_empty_r. reflexivity.
    + reflexivity.
Qed.

(** The refinement: on records with serialisable values the encoder
    writes the array that the specification describes. *)
Lemma gen_text_list (l : list dict) :
  Forall (fun d => keys d = key_order) l ->
  forallb serializable_dict l = true ->
  gen_text (iterencode_list 2 l 0) = render_array l.
Proof.
  intros Hk Hs. destruct l as [ | d l ]; [ reflexivity | ].
  cbn [iterencode_list].
  rewrite gen_text_seq by (rewrite gen_exn_elems, Hs; reflexivity).
  rewrite (gen_text_elems _ _ _ Hk Hs).
  unfold render_array, comma. cbn [gen_text Nat.mul Nat.add spaces].
  rewrite !append_assoc. reflexivity.
Qed.

Lemma dump_spec (result : list dict) :
  dump result 2 "" =
  (gen_text (iterencode_list 2 result 0),
   if forallb serializable_dict result then None else Some TypeError).
Proof.
  unfold dump. rewrite write_chunks_spec, gen_exn_list. reflexivity.
Qed.

(** The three ways a run can go. *)
Lemma main_cases (w : World) :
  (csv_file w = None /\ main w = (w, Some FileNotFoundError)) \/
  (exists df e,
      csv_file w = Some df /\ loop (iterrows df) [] = Raise e /\
      main w = (w, Some e)) \/
  (exists df result,
      csv_file w = Some df /\ loop (iterrows df) [] = OK result /\
      main w =
      ({| csv_file := csv_file w;
          json_file := Some (gen_text (iterencode_list 2 result 0)) |},
       if forallb serializable_dict result then None else Some TypeError)).
Proof.
  unfold main, read_csv.
  destruct (csv_file w) as [df | ] eqn:Hcsv; [ | left; auto ].
  right. destruct (loop (iterrows df) []) as [result | e] eqn:Hl.
  - right. exists df, result.
    split; [ reflexivity | split; [ exact Hl | ] ].
    unfold write_json. rewrite dump_spec, Hcsv. reflexivity.
  - left. exists df, e. auto.
Qed.

(** The layout of the file after a successful run. *)
Lemma output_layout (w w' : World) :
  main w = (w', None) ->
  exists df result,
    csv_file w = Some df /\
    loop (iterrows df) [] = OK result /\
    Forall (fun d => keys d = key_order) result /\
    forallb serializable_dict result = true /\
    json_file w' = Some (render_array result) /\
    forall (a b : string) (c : ascii),
      128 <= nat_of_ascii c ->
      token (Py (Str (a ++ String c b)))
      = dquote ++ escape_all a ++ String c (escape_all b) ++ dquote.
Proof.
  intros Hm.
  destruct (main_cases w) as [(_ & Hr) | [(df & e & _ & _ & Hr)
                                         | (df & result & Hcsv & Hl & Hr)]];
    rewrite Hr in Hm; try discriminate.
  injection Hm as <- Hs.
  destruct (forallb serializable_dict result) eqn:Hser; [ | discriminate ].
  exists df, result.
  pose proof (loop_keys _ _ Hl) as Hk.
  repeat split; try assumption.
  - simpl. rewrite (gen_text_list _ Hk Hser). reflexivity.
  - intros a b c Hc. simpl.
    rewrite (escape_all_non_ascii a b c Hc), append_assoc. reflexivity.
Qed.

(** C8. On a table without rows the run succeeds and the output file
    holds exactly the empty array. *)
Theorem empty_table_gives_empty_array (w : World) (df : DataFrame) :
  csv_file w = Some df ->
  data df = [] ->
  main w = ({| csv_file := csv_file w; json_file := Some "[]" |}, None).
Proof.
  intros Hcsv Hd. unfold main, read_csv, iterrows, stored_rows.
  rewrite Hcsv, Hd. cbn [map loop].
  unfold write_json, dump. cbn. rewrite Hcsv. reflexivity.
Qed.

(** C4, amended. A run that fails while reading or mapping (file not
    found, missing field, type conversion) writes nothing: both files are
    as before.  A run that maps every row opens and overwrites the output
    file: with the whole array when serialisation succeeds, and with the
    chunks written before the failure when a value is not serialisable. *)
Theorem all_or_nothing_before_serialisation (w : World) :
  (exists e,
      snd (main w) = Some e /\
      (e = FileNotFoundError \/ is_key_error e = true
       \/ is_conversion_error e = true) /\
      fst (main w) = w)
  \/
  (exists df result,
      csv_file w = Some df /\ loop (iterrows df) [] = OK result /\
      csv_file (fst (main w)) = csv_file w /\
      ((forallb serializable_dict result = true /\
        snd (main w) = None /\
        json_file (fst (main w)) = Some (render_array result))
       \/
       (forallb serializable_dict result = false /\
        snd (main w) = Some TypeError /\
        json_file (fst (main w))
        = Some (gen_text (iterencode_list 2 result 0))))).
Proof.
  destruct (main_cases w) as [(_ & Hr) | [(df & e & _ & Hl & Hr)
                                         | (df & result & Hcsv & Hl & Hr)]];
    rewrite Hr.
  - left. exists FileNotFoundError. simpl. auto.
  - left. exists e. simpl. repeat split.
    apply loop_Raise_iff in Hl.
    destruct Hl as (before & row & after & _ & _ & He).
    right. apply entry_Raise_inv in He.
    destruct He as [(c & _ & -> & _) | (Hc & _)]; [ left | right ];
      [ reflexivity | exact Hc ].
  - right. exists df, result. simpl. repeat split; try assumption.
    destruct (forallb serializable_dict result) eqn:Hser; [ left | right ].
    + repeat split. rewrite (gen_text_list _ (loop_keys _ _ Hl) Hser).
      reflexivity.
    + repeat split.
Qed.

End Output.

(* ====================================================================== *)
(** ** Failures *)
(* ====================================================================== *)

Section Failures.

Context `{Builtins}.

(** Splits [complete row = true] into the eight successful lookups. *)
Ltac complete_lookups Hc :=
  unfold complete, expected_columns, has_column in Hc; cbn [forallb] in Hc;
  repeat match type of Hc with
    | context [getitem ?row ?c] =>
        let x := fresh "x" in
        let Hg := fresh "Hg" in
        destruct (getitem row c) as [ x | ? ] eqn:Hg;
        [ cbn [andb] in Hc | discriminate Hc ]
    end.

(** A row with all eight columns and a numeric rank is mapped. *)
Lemma entry_complete_numeric (row : Series) :
  complete row = true -> rank_non_numeric row = false ->
  exists d, entry row = OK d.
Proof.
  intros Hc Hn. unfold rank_non_numeric in Hn. complete_lookups Hc.
  apply negb_false_iff in Hn. destruct (int_numeric _ Hn) as (z & Hz).
  unfold entry. rewrite Hg, Hg0, Hg1, Hg2, Hg3, Hg4, Hg5, Hg6.
  cbn [bind]. destruct (isna x1); cbn [bind]; rewrite Hz; cbn [bind];
    eexists; reflexivity.
Qed.

(** A row with all eight columns and a non-numeric rank fails with a
    type-conversion error. *)
Lemma entry_complete_non_numeric (row : Series) :
  complete row = true -> rank_non_numeric row = true ->
  exists e, entry row = Raise e /\ is_conversion_error e = true.
Proof.
  intros Hc Hn. unfold rank_non_numeric in Hn. complete_lookups Hc.
  apply negb_true_iff in Hn.
  destruct (int_non_numeric _ Hn) as (e & He & Hce).
  exists e. split; [ | exact Hce ].
  unfold entry. rewrite Hg, Hg0, Hg1, Hg2, Hg3.
  cbn [bind]. destruct (isna x1); cbn [bind]; rewrite He; reflexivity.
Qed.

Lemma missing_column_incomplete (row : Series) (c : string) (e : exn) :
  In c expected_columns -> getitem row c = Raise e -> complete row = false.
Proof.
  intros Hin Hg. destruct (complete row) eqn:Hc; [ | reflexivity ].
  unfold complete in Hc. rewrite forallb_forall in Hc.
  specialize (Hc c Hin). unfold has_column in Hc. rewrite Hg in Hc.
  discriminate.
Qed.

(** A row whose rank, if present, is numeric: it is mapped when it has
    all eight columns, and fails with a missing-field error otherwise. *)
Lemma entry_numeric_cases (row : Series) :
  rank_non_numeric row = false ->
  (complete row = true /\ exists d, entry row = OK d) \/
  (complete row = false /\ exists c, entry row = Raise (KeyError c)).
Proof.
  intros Hn. destruct (complete row) eqn:Hc.
  - left. split; [ reflexivity | ].
    apply entry_complete_numeric; assumption.
  - right. split; [ reflexivity | ].
    destruct (entry row) as [ d | e ] eqn:He.
    + apply entry_inv in He.
      destruct He as (korean & en & h & cl & rank & z & cx & wr & wk & H1
                      & H2 & H3 & H4 & H5 & _ & H6 & H7 & H8 & _).
      unfold complete, expected_columns, has_column in Hc.
      cbn [forallb] in Hc.
      rewrite H1, H2, H3, H4, H5, H6, H7, H8 in Hc. discriminate.
    + apply entry_Raise_inv in He.
      destruct He as [(c & _ & -> & _) | (_ & x & Hx & Hnum)].
      * exists c. reflexivity.
      * unfold rank_non_numeric in Hn. rewrite Hx, Hnum in Hn.
        discriminate.
Qed.

(** On a table whose rows have all eight columns the loop fails exactly
    when some rank is not numeric, and then with a type-conversion
    error. *)
Lemma loop_complete (rows : list Series) :
  forallb complete rows = true ->
  if existsb rank_non_numeric rows
  then exists e, loop rows [] = Raise e /\ is_conversion_error e = true
  else exists result, loop rows [] = OK result.
Proof.
  induction rows as [ | row rows IH ]; intros Hc.
  - simpl. eexists; reflexivity.
  - cbn [forallb] in Hc. apply andb_true_iff in Hc; destruct Hc as [Hr Hc].
    specialize (IH Hc). cbn [existsb]. rewrite loop_cons.
    destruct (rank_non_numeric row) eqn:Hn; cbn [orb].
    + destruct (entry_complete_non_numeric row Hr Hn) as (e & He & Hce).
      exists e. rewrite He. auto.
    + destruct (entry_complete_numeric row Hr Hn) as (d & Hd).
      rewrite Hd; cbn [bind].
      destruct (existsb rank_non_numeric rows).
      * destruct IH as (e & He & Hce). exists e. rewrite He. auto.
      * destruct IH as (result & Hres). rewrite Hres.
        eexists; reflexivity.
Qed.

(** On a table without a non-numeric rank the loop fails exactly when
    some row lacks a column, and then with a missing-field error. *)
Lemma loop_numeric (rows : list Series) :
  existsb rank_non_numeric rows = false ->
  if existsb incomplete rows
  then exists c, loop rows [] = Raise (KeyError c)
  else exists result, loop rows [] = OK result.
Proof.
  induction rows as [ | row rows IH ]; intros Hn.
  - simpl. eexists; reflexivity.
  - cbn [existsb] in Hn. apply orb_false_iff in Hn; destruct Hn as [Hr Hn].
    specialize (IH Hn). cbn [existsb]. rewrite loop_cons. unfold incomplete at 1.
    destruct (entry_numeric_cases row Hr) as [(Hc & d & Hd) | (Hc & c & Hk)];
      rewrite Hc; cbn [negb orb].
    + rewrite Hd; cbn [bind].
      destruct (existsb incomplete rows).
      * destruct IH as (c & Hk). exists c. rewrite Hk. reflexivity.
      * destruct IH as (result & Hres). rewrite Hres.
        eexists; reflexivity.
    + exists c. rewrite Hk. reflexivity.
Qed.

(** A failure of the loop ends the run with the same exception and leaves
    both files as they were. *)
Lemma main_loop_Raise (w : World) (df : DataFrame) (e : exn) :
  csv_file w = Some df -> loop (iterrows df) [] = Raise e ->
  main w = (w, Some e).
Proof.
  intros Hcsv Hl. unfold main, read_csv. rewrite Hcsv, Hl. reflexivity.
Qed.

(** A run that ends with a missing-field or type-conversion error failed
    in the loop. *)
Lemma main_fails_in_loop (w : World) (e : exn) :
  snd (main w) = Some e ->
  is_key_error e = true \/ is_conversion_error e = true ->
  exists df, csv_file w = Some df /\ loop (iterrows df) [] = Raise e.
Proof.
  intros Hm Hkind.
  destruct (main_cases w) as [(_ & Hr) | [(df & e' & Hcsv & Hl & Hr)
                                         | (df & result & _ & _ & Hr)]];
    rewrite Hr in Hm; cbn [snd] in Hm.
  - injection Hm as <-. destruct Hkind; discriminate.
  - injection Hm as <-. exists df. auto.
  - destruct (forallb serializable_dict result); [ discriminate | ].
    injection Hm as <-. destruct Hkind; discriminate.
Qed.

End Failures.

Section ErrorClaims.

Context `{Builtins}.

Lemma int_OK_numeric (x : scalar) (z : Z) : int x = OK z -> numeric x = true.
Proof.
  intros Hi. destruct (numeric x) eqn:Hn; [ reflexivity | ].
  destruct (int_non_numeric x Hn) as (e & He & _). congruence.
Qed.

(** The exception of a failed loop tells what was wrong with the table. *)
Lemma loop_Raise_kind (rows : list Series) (e : exn) :
  loop rows [] = Raise e ->
  (is_key_error e = true /\ existsb incomplete rows = true) \/
  (is_conversion_error e = true /\ existsb rank_non_numeric rows = true).
Proof.
  intros Hl. apply loop_Raise_iff in Hl.
  destruct Hl as (before & row & after & -> & _ & He).
  assert (Hin : In row (before ++ row :: after))
    by (apply in_or_app; right; left; reflexivity).
  apply entry_Raise_inv in He.
  destruct He as [(c & Hc & -> & Hg) | (Hce & x & Hx & Hn)]; [ left | right ].
  - split; [ reflexivity | ]. apply existsb_exists. exists row.
    split; [ exact Hin | ]. unfold incomplete.
    rewrite (missing_column_incomplete _ _ _ Hc Hg). reflexivity.
  - split; [ exact Hce | ]. apply existsb_exists. exists row.
    split; [ exact Hin | ]. unfold rank_non_numeric.
    rewrite Hx, Hn. reflexivity.
Qed.

(** A row with a non-numeric rank is never mapped. *)
Lemma entry_non_numeric_fails (row : Series) :
  rank_non_numeric row = true -> exists e, entry row = Raise e.
Proof.
  intros Hn. destruct (entry row) as [ d | e ] eqn:He;
    [ | exists e; reflexivity ].
  apply entry_inv in He.
  destruct He as (korean & en & h & cl & rank & z & cx & wr & wk & _ & _
                  & _ & _ & Hr & Hz & _).
  unfold rank_non_numeric in Hn.
  rewrite Hr, (int_OK_numeric _ _ Hz) in Hn. discriminate.
Qed.

(** The loop fails as soon as the table holds a row that is not mapped. *)
Lemma loop_fails_on_bad_row (rows : list Series) (row : Series) :
  In row rows -> (exists e, entry row = Raise e) ->
  exists e, loop rows [] = Raise e.
Proof.
  intros Hin Hbad. induction rows as [ | r rows IH ]; [ contradiction | ].
  rewrite loop_cons. destruct (entry r) as [ d | e ] eqn:He; cbn [bind].
  - destruct Hin as [ -> | Hin ].
    + destruct Hbad as (e & Hbad). congruence.
    + destruct (IH Hin) as (e & Hl). exists e. rewrite Hl. reflexivity.
  - exists e. reflexivity.
Qed.

(** What the conversion of the rank means for a row and for the run. *)
Lemma frequency_facts :
  (forall row d,
      entry row = OK d ->
      exists rank z,
        getitem row "Frequency Rank" = OK rank /\ numeric rank = true /\
        int rank = OK z /\ dict_get d "frequency" = Some (Py (Int z))) /\
  (forall row,
      complete row = true -> rank_non_numeric row = false ->
      exists d, entry row = OK d) /\
  (forall w df row,
      csv_file w = Some df -> In row (iterrows df) ->
      rank_non_numeric row = true ->
      exists e,
        main w = (w, Some e) /\
        (is_conversion_error e = true \/ is_key_error e = true) /\
        (forallb complete (iterrows df) = true ->
         is_conversion_error e = true)).
Proof.
  split; [ | split ].
  - intros row d He. apply entry_inv in He.
    destruct He as (korean & en & h & cl & rank & z & cx & wr & wk & _ & _
                    & _ & _ & Hr & Hz & _ & _ & _ & ->).
    exists rank, z. repeat split; try assumption.
    exact (int_OK_numeric _ _ Hz).
  - exact entry_complete_numeric.
  - intros w df row Hcsv Hin Hn.
    destruct (loop_fails_on_bad_row _ row Hin (entry_non_numeric_fails _ Hn))
      as (e & Hl).
    exists e. split; [ exact (main_loop_Raise w df e Hcsv Hl) | ]. split.
    + destruct (loop_Raise_kind _ _ Hl) as [(Hk & _) | (Hc & _)]; auto.
    + intros Hall. pose proof (loop_complete _ Hall) as Hlc.
      assert (Hex : existsb rank_non_numeric (iterrows df) = true)
        by (apply existsb_exists; exists row; auto).
      rewrite Hex in Hlc. destruct Hlc as (e' & Hl' & Hce). congruence.
Qed.

(** Under which conditions a run fails with each kind of error. *)
Lemma error_kinds_facts (w : World) :
  (fails_with is_file_not_found w <-> csv_file w = None) /\
  (fails_with is_key_error w ->
   exists df, csv_file w = Some df /\
              existsb incomplete (iterrows df) = true) /\
  (fails_with is_conversion_error w ->
   exists df, csv_file w = Some df /\
              existsb rank_non_numeric (iterrows df) = true) /\
  (forall df,
      csv_file w = Some df -> forallb complete (iterrows df) = true ->
      (fails_with is_conversion_error w <->
       existsb rank_non_numeric (iterrows df) = true)) /\
  (forall df,
      csv_file w = Some df ->
      existsb rank_non_numeric (iterrows df) = false ->
      (fails_with is_key_error w <->
       existsb incomplete (iterrows df) = true)) /\
  (forall df before row after e,
      csv_file w = Some df ->
      iterrows df = (before ++ row :: after)%list ->
      Forall (fun r => exists d, entry r = OK d) before ->
      entry row = Raise e ->
      main w = (w, Some e)).
Proof.
  assert (Hkey : fails_with is_key_error w ->
                 exists df, csv_file w = Some df /\
                            existsb incomplete (iterrows df) = true).
  { intros (e & Hm & Hk).
    destruct (main_fails_in_loop w e Hm (or_introl Hk)) as (df & Hcsv & Hl).
    exists df. split; [ exact Hcsv | ].
    destruct (loop_Raise_kind _ _ Hl) as [(_ & Hi) | (Hce & _)];
      [ exact Hi | destruct e; discriminate ]. }
  assert (Hconv : fails_with is_conversion_error w ->
                  exists df, csv_file w = Some df /\
                             existsb rank_non_numeric (iterrows df) = true).
  { intros (e & Hm & Hc).
    destruct (main_fails_in_loop w e Hm (or_intror Hc)) as (df & Hcsv & Hl).
    exists df. split; [ exact Hcsv | ].
    destruct (loop_Raise_kind _ _ Hl) as [(Hk & _) | (_ & Hn)];
      [ destruct e; discriminate | exact Hn ]. }
  split; [ split | ].
  - intros (e & Hm & Hf).
    destruct (main_cases w) as [(Hnone & _) | [(df & e' & _ & Hl & Hr)
                                              | (df & result & _ & _ & Hr)]];
      [ exact Hnone | | ]; rewrite Hr in Hm; cbn [snd] in Hm.
    + injection Hm as <-.
      destruct (loop_Raise_kind _ _ Hl) as [(Hk & _) | (Hc & _)];
        destruct e'; discriminate.
    + destruct (forallb serializable_dict result); [ discriminate | ].
      injection Hm as <-. discriminate.
  - intros Hnone. exists FileNotFoundError.
    unfold main, read_csv. rewrite Hnone. auto.
  - split; [ exact Hkey | ]. split; [ exact Hconv | ].
    split; [ | split ].
    + intros df Hcsv Hall. split.
      * intros Hf. destruct (Hconv Hf) as (df' & Hcsv' & Hn). congruence.
      * intros Hn. pose proof (loop_complete _ Hall) as Hl. rewrite Hn in Hl.
        destruct Hl as (e & Hl & Hce). exists e.
        rewrite (main_loop_Raise w df e Hcsv Hl). auto.
    + intros df Hcsv Hnum. split.
      * intros Hf. destruct (Hkey Hf) as (df' & Hcsv' & Hi). congruence.
      * intros Hi. pose proof (loop_numeric _ Hnum) as Hl. rewrite Hi in Hl.
        destruct Hl as (c & Hl). exists (KeyError c).
        rewrite (main_loop_Raise w df _ Hcsv Hl). auto.
    + intros df before row after e Hcsv Hrows Hb He.
      apply (main_loop_Raise w df e Hcsv). apply loop_Raise_iff.
      exists before, row, after. auto.
Qed.

(** [entry] fails as the order of the dict display says, and is mapped
    when that order finds nothing wrong. *)
Lemma entry_first_failure (row : Series) :
  match first_failure row with
  | Some e => entry row = Raise e
  | None => exists d, entry row = OK d
  end.
Proof.
  unfold first_failure, first_missing, read_before_rank, read_after_rank,
    has_column, entry.
  cbn [find].
  destruct (getitem row "Word") as [ korean | e ] eqn:H1; cbn [negb bind];
    [ | rewrite (getitem_Raise _ _ _ H1); reflexivity ].
  destruct (getitem row "English") as [ en | e ] eqn:H2; cbn [negb bind];
    [ | rewrite (getitem_Raise _ _ _ H2); reflexivity ].
  destruct (getitem row "Hanja/Ref.") as [ h | e ] eqn:H3; cbn [negb bind];
    [ | rewrite (getitem_Raise _ _ _ H3); reflexivity ].
  assert (Hh : (if isna h then OK PyNone else OK (Py h)) =
               OK (if isna h then PyNone else Py h))
    by (destruct (isna h); reflexivity).
  rewrite Hh; cbn [bind]; clear Hh.
  destruct (getitem row "Classification") as [ cl | e ] eqn:H4;
    cbn [negb bind];
    [ | rewrite (getitem_Raise _ _ _ H4); reflexivity ].
  destruct (getitem row "Frequency Rank") as [ rank | e ] eqn:H5;
    cbn [negb bind];
    [ | rewrite (getitem_Raise _ _ _ H5); reflexivity ].
  destruct (int rank) as [ z | e ]; cbn [bind]; [ | reflexivity ].
  destruct (getitem row "Complexity") as [ cx | e ] eqn:H6;
    cbn [negb bind option_map];
    [ | rewrite (getitem_Raise _ _ _ H6); reflexivity ].
  destruct (getitem row "Wordreference Link") as [ wr | e ] eqn:H7;
    cbn [negb bind option_map];
    [ | rewrite (getitem_Raise _ _ _ H7); reflexivity ].
  destruct (getitem row "Wiktionary Link") as [ wk | e ] eqn:H8;
    cbn [negb bind option_map];
    [ | rewrite (getitem_Raise _ _ _ H8); reflexivity ].
  eexists; reflexivity.
Qed.

Lemma first_failure_None (row : Series) :
  (exists d, entry row = OK d) -> first_failure row = None.
Proof.
  intros (d & Hd). pose proof (entry_first_failure row) as Hf.
  destruct (first_failure row); [ congruence | reflexivity ].
Qed.

Lemma first_failure_Some (row : Series) (e : exn) :
  entry row = Raise e <-> first_failure row = Some e.
Proof.
  pose proof (entry_first_failure row) as Hf.
  destruct (first_failure row) as [ e' | ].
  - split; intros He; congruence.
  - destruct Hf as (d & Hd). split; intros He; congruence.
Qed.

(** The run ends with the exception of the first row that is not mapped,
    and that exception is the one the order of the dict display gives. *)
Lemma loop_first_failure (rows : list Series) (e : exn) :
  loop rows [] = Raise e <->
  exists before row after,
    rows = (before ++ row :: after)%list /\
    Forall (fun r => first_failure r = None) before /\
    first_failure row = Some e.
Proof.
  rewrite loop_Raise_iff. split.
  - intros (before & row & after & Heq & Hb & He).
    exists before, row, after. split; [ exact Heq | ]. split.
    + apply Forall_impl with (2 := Hb). intros r. apply first_failure_None.
    + apply first_failure_Some; exact He.
  - intros (before & row & after & Heq & Hb & He).
    exists before, row, after. split; [ exact Heq | ]. split.
    + apply Forall_impl with (2 := Hb). intros r Hr.
      pose proof (entry_first_failure r) as Hf. rewrite Hr in Hf. exact Hf.
    + apply first_failure_Some; exact He.
Qed.

(** C2, amended. A record's [frequency] is always a Python integer, the
    value [int()] reads from a numeric [Frequency Rank] (never a string or
    a float), and every row with the eight columns and a numeric rank is
    mapped.  A row with a non-numeric [Frequency Rank] is never mapped: it
    fails with the missing-field error of the first of Word, English,
    Hanja/Ref., Classification that it lacks, and with the type-conversion
    error of its rank when it has all four.  The run then fails and leaves
    both files as they were, with the exception of the first row that
    fails, which is the one the order of the dict display gives for that
    row; it is a type-conversion error when the rows of the table have all
    eight columns. *)
Theorem frequency_integer_or_conversion_error :
  (forall row d,
      entry row = OK d ->
      exists rank z,
        getitem row "Frequency Rank" = OK rank /\ numeric rank = true /\
        int rank = OK z /\ dict_get d "frequency" = Some (Py (Int z))) /\
  (forall row,
      complete row = true -> rank_non_numeric row = false ->
      exists d, entry row = OK d) /\
  (forall row,
      rank_non_numeric row = true ->
      exists e,
        entry row = Raise e /\
        match first_missing row
                [ "Word"; "English"; "Hanja/Ref."; "Classification" ] with
        | Some c => e = KeyError c
        | None => is_conversion_error e = true
        end) /\
  (forall w df row,
      csv_file w = Some df -> In row (iterrows df) ->
      rank_non_numeric row = true ->
      exists before bad after e,
        iterrows df = (before ++ bad :: after)%list /\
        Forall (fun r => first_failure r = None) before /\
        first_failure bad = Some e /\
        main w = (w, Some e) /\
        (is_conversion_error e = true \/ is_key_error e = true) /\
        (forallb complete (iterrows df) = true ->
         is_conversion_error e = true)).
Proof.
  destruct frequency_facts as (Hint & Hmapped & Hrun).
  split; [ exact Hint | ]. split; [ exact Hmapped | ]. split.
  - intros row Hn.
    pose proof (entry_first_failure row) as Hf.
    unfold rank_non_numeric in Hn.
    destruct (getitem row "Frequency Rank") as [ rank | e0 ] eqn:Hr;
      [ | discriminate ].
    apply negb_true_iff in Hn.
    destruct (int_non_numeric _ Hn) as (e & He & Hce).
    unfold first_failure, first_missing, read_before_rank, has_column in Hf.
    unfold first_missing, has_column. cbn [find] in *.
    destruct (getitem row "Word"); cbn [negb] in *;
      [ | eexists; split; [ exact Hf | reflexivity ] ].
    destruct (getitem row "English"); cbn [negb] in *;
      [ | eexists; split; [ exact Hf | reflexivity ] ].
    destruct (getitem row "Hanja/Ref."); cbn [negb] in *;
      [ | eexists; split; [ exact Hf | reflexivity ] ].
    destruct (getitem row "Classification"); cbn [negb] in *;
      [ | eexists; split; [ exact Hf | reflexivity ] ].
    rewrite Hr in Hf. cbn [negb] in Hf. rewrite He in Hf.
    exists e. split; [ exact Hf | exact Hce ].
  - intros w df row Hcsv Hin Hn.
    destruct (Hrun w df row Hcsv Hin Hn) as (e & Hm & Hkind & Hall).
    assert (Hl : loop (iterrows df) [] = Raise e).
    { destruct (loop (iterrows df) []) as [ result | e' ] eqn:Hl.
      - unfold main, read_csv in Hm. rewrite Hcsv, Hl in Hm.
        unfold write_json in Hm. destruct (dump result 2 "") in Hm.
        injection Hm as Hw _. rewrite <- Hw in Hcsv. cbn in Hcsv.
        exfalso.
        destruct (loop_fails_on_bad_row _ row Hin
                    (entry_non_numeric_fails _ Hn)) as (e'' & Hl'').
        congruence.
      - rewrite (main_loop_Raise w df e' Hcsv Hl) in Hm. congruence. }
    apply loop_first_failure in Hl.
    destruct Hl as (before & bad & after & Heq & Hb & He).
    exists before, bad, after, e. auto 10.
Qed.

(** C5, amended. The run fails with a file-not-found error exactly when
    the input file is missing.  A missing-field error happens only when a
    row lacks one of the eight columns, and a type-conversion error only
    when a [Frequency Rank] is not numeric; when both are the case the
    first failure decides: the run ends at the first row that fails, and
    that row fails with the missing-field error of the first column it
    lacks among Word, English, Hanja/Ref., Classification, Frequency Rank,
    else with the type-conversion error of its rank, else with the
    missing-field error of the first column it lacks among Complexity,
    Wordreference Link, Wiktionary Link.  So: in a table whose rows have
    all eight columns the run fails with a type-conversion error exactly
    when some rank is not numeric; in a table without a non-numeric rank
    it fails with a missing-field error exactly when some row lacks a
    column.  No failure is retried or recovered: both files are as
    before. *)
Theorem error_kinds_by_first_failure (w : World) :
  (fails_with is_file_not_found w <-> csv_file w = None) /\
  (fails_with is_key_error w ->
   exists df, csv_file w = Some df /\
              existsb incomplete (iterrows df) = true) /\
  (fails_with is_conversion_error w ->
   exists df, csv_file w = Some df /\
              existsb rank_non_numeric (iterrows df) = true) /\
  (forall df,
      csv_file w = Some df -> forallb complete (iterrows df) = true ->
      (fails_with is_conversion_error w <->
       existsb rank_non_numeric (iterrows df) = true)) /\
  (forall df,
      csv_file w = Some df ->
      existsb rank_non_numeric (iterrows df) = false ->
      (fails_with is_key_error w <->
       existsb incomplete (iterrows df) = true)) /\
  (forall df before row after e,
      csv_file w = Some df ->
      iterrows df = (before ++ row :: after)%list ->
      Forall (fun r => first_failure r = None) before ->
      first_failure row = Some e ->
      main w = (w, Some e)) /\
  (forall e,
      snd (main w) = Some e ->
      is_key_error e = true \/ is_conversion_error e = true ->
      fst (main w) = w /\
      exists df before row after,
        csv_file w = Some df /\
        iterrows df = (before ++ row :: after)%list /\
        Forall (fun r => first_failure r = None) before /\
        first_failure row = Some e) /\
  (forall e,
      snd (main w) = Some e ->
      is_file_not_found e = true \/ is_key_error e = true
      \/ is_conversion_error e = true ->
      fst (main w) = w).
Proof.
  destruct (error_kinds_facts w) as (Hfnf & Hkey & Hconv & Hall & Hnum & _).
  split; [ exact Hfnf | ]. split; [ exact Hkey | ]. split; [ exact Hconv | ].
  split; [ exact Hall | ]. split; [ exact Hnum | ]. split.
  - intros df before row after e Hcsv Hrows Hb He.
    apply (main_loop_Raise w df e Hcsv). apply loop_first_failure.
    exists before, row, after. auto.
  - split.
    + intros e Hm Hkind.
      destruct (main_fails_in_loop w e Hm Hkind) as (df & Hcsv & Hl).
      split; [ rewrite (main_loop_Raise w df e Hcsv Hl); reflexivity | ].
      apply loop_first_failure in Hl.
      destruct Hl as (before & row & after & Heq & Hb & He).
      exists df, before, row, after. auto.
    + intros e Hm Hkind.
      destruct (main_cases w) as [(_ & Hr) | [(df & e' & _ & _ & Hr)
                                             | (df & result & _ & _ & Hr)]];
        rewrite Hr in *; cbn [fst snd] in *; try reflexivity.
      destruct (forallb serializable_dict result); [ discriminate Hm | ].
      injection Hm as <-.
      destruct Hkind as [ Hk | [ Hk | Hk ] ]; discriminate Hk.
Qed.

End ErrorClaims.

(* ====================================================================== *)
(** ** When a run succeeds *)
(* ====================================================================== *)

Section Success.

Context `{Builtins}.

(** A row is mapped exactly when it has the eight columns and a numeric
    rank. *)
Lemma entry_OK_iff (row : Series) :
  (exists d, entry row = OK d) <-> mappable row = true.
Proof.
  unfold mappable. split.
  - intros (d & He). apply entry_inv in He.
    destruct He as (korean & en & h & cl & rank & z & cx & wr & wk & H1 & H2
                    & H3 & H4 & H5 & Hz & H6 & H7 & H8 & _).
    unfold complete, expected_columns, has_column, rank_non_numeric.
    cbn [forallb]. rewrite H1, H2, H3, H4, H5, H6, H7, H8.
    rewrite (int_OK_numeric _ _ Hz). reflexivity.
  - intros Hm. apply andb_true_iff in Hm. destruct Hm as [Hc Hn].
    apply negb_true_iff in Hn. apply entry_complete_numeric; assumption.
Qed.

Lemma loop_OK_mappable (rows : list Series) :
  (exists result, loop rows [] = OK result) <-> forallb mappable rows = true.
Proof.
  induction rows as [ | row rows IH ].
  - simpl. split; [ reflexivity | intros _; eexists; reflexivity ].
  - rewrite loop_cons. cbn [forallb]. rewrite andb_true_iff, <- IH.
    rewrite <- entry_OK_iff. split.
    + intros (result & Hl). bind_inv Hl. bind_inv Hl.
      split; eexists; eassumption.
    + intros [(d & Hd) (result & Hl)]. rewrite Hd, Hl.
      eexists; reflexivity.
Qed.

(** The rank never stands in the way of the dump: a record can be dumped
    exactly when the copied cells of its row can. *)
Lemma entry_serializable (row : Series) (d : dict) :
  entry row = OK d -> serializable_dict d = json_ready row.
Proof.
  intros He. apply entry_inv in He.
  destruct He as (korean & en & h & cl & rank & z & cx & wr & wk & H1 & H2
                  & H3 & H4 & H5 & Hz & H6 & H7 & H8 & ->).
  unfold json_ready, copied_columns, encodable. cbn [forallb].
  rewrite H1, H2, H3, H4, H6, H7, H8.
  unfold serializable_dict. cbn [forallb snd].
  assert (Hh : serializable (if isna h then PyNone else Py h)
               = serializable (Py h)).
  { destruct h as [ | | [ | | | ] | | | ]; reflexivity. }
  rewrite Hh. cbn [serializable]. rewrite !andb_true_r. reflexivity.
Qed.

Lemma loop_serializable (rows : list Series) (result : list dict) :
  loop rows [] = OK result ->
  forallb serializable_dict result = forallb json_ready rows.
Proof.
  intros Hl. apply loop_OK_iff in Hl.
  induction Hl as [ | row d rows result He _ IH ]; [ reflexivity | ].
  cbn [forallb]. rewrite (entry_serializable _ _ He), IH. reflexivity.
Qed.

Lemma forallb_andb {A : Type} (f g : A -> bool) (l : list A) :
  forallb (fun a => f a && g a) l = forallb f l && forallb g l.
Proof.
  induction l as [ | a l IH ]; [ reflexivity | ].
  cbn [forallb]. rewrite IH.
  destruct (f a), (g a), (forallb f l); reflexivity.
Qed.

(** X1. The run ends normally exactly when the input file exists and
    every row of its table has the eight columns, a numeric rank, and
    copied cells that the encoder accepts. *)
Theorem run_succeeds_iff (w : World) :
  snd (main w) = None <->
  exists df,
    csv_file w = Some df /\
    forallb (fun row => mappable row && json_ready row) (iterrows df) = true.
Proof.
  destruct (main_cases w) as [(Hnone & Hr) | [(df & e & Hcsv & Hl & Hr)
                                             | (df & result & Hcsv & Hl & Hr)]];
    rewrite Hr; cbn [snd].
  - split; [ discriminate | ]. intros (df & Hcsv & _). congruence.
  - split; [ discriminate | ]. intros (df' & Hcsv' & Hall).
    assert (df' = df) by congruence; subst df'.
    rewrite forallb_andb in Hall. apply andb_true_iff in Hall.
    destruct Hall as [Hm _]. apply loop_OK_mappable in Hm.
    destruct Hm as (result & Hres). congruence.
  - rewrite (loop_serializable _ _ Hl). split.
    + intros Hs. exists df. split; [ exact Hcsv | ].
      rewrite forallb_andb. apply andb_true_iff. split.
      * apply loop_OK_mappable. exists result; exact Hl.
      * destruct (forallb json_ready (iterrows df));
          [ reflexivity | discriminate ].
    + intros (df' & Hcsv' & Hall).
      assert (df' = df) by congruence; subst df'.
      rewrite forallb_andb in Hall. apply andb_true_iff in Hall.
      destruct Hall as [_ Hj]. rewrite Hj. reflexivity.
Qed.

(** X2. The run ends with [TypeError] exactly when every row is mapped
    and some copied cell is a numpy integer or bool, which the encoder
    rejects; a numpy rank alone does no harm, since [int()] makes it a
    Python integer. *)
Theorem run_type_error_iff (w : World) :
  snd (main w) = Some TypeError <->
  exists df,
    csv_file w = Some df /\
    forallb mappable (iterrows df) = true /\
    forallb json_ready (iterrows df) = false.
Proof.
  destruct (main_cases w) as [(Hnone & Hr) | [(df & e & Hcsv & Hl & Hr)
                                             | (df & result & Hcsv & Hl & Hr)]];
    rewrite Hr; cbn [snd].
  - split; [ discriminate | ]. intros (df & Hcsv & _). congruence.
  - split.
    + intros [= ->].
      destruct (loop_Raise_kind _ _ Hl) as [(Hk & _) | (Hc & _)];
        discriminate.
    + intros (df' & Hcsv' & Hm & _).
      assert (df' = df) by congruence; subst df'.
      apply loop_OK_mappable in Hm. destruct Hm as (result & Hres).
      congruence.
  - rewrite (loop_serializable _ _ Hl). split.
    + intros Hs. exists df. split; [ exact Hcsv | ]. split.
      * apply loop_OK_mappable. exists result; exact Hl.
      * destruct (forallb json_ready (iterrows df));
          [ discriminate | reflexivity ].
    + intros (df' & Hcsv' & _ & Hj).
      assert (df' = df) by congruence; subst df'.
      rewrite Hj. reflexivity.
Qed.

End Success.

(* ====================================================================== *)
(** ** Which exception a row raises *)
(* ====================================================================== *)

Section FirstFailure.

Context `{Builtins}.

Lemma has_column_false (row : Series) (c : string) :
  has_column row c = false <-> getitem row c = Raise (KeyError c).
Proof.
  unfold has_column. split.
  - destruct (getitem row c) as [ x | e ] eqn:Hg; [ discriminate | ].
    intros _. rewrite (getitem_Raise _ _ _ Hg). reflexivity.
  - intros ->. reflexivity.
Qed.

Lemma has_column_true (row : Series) (c : string) :
  has_column row c = true -> exists x, getitem row c = OK x.
Proof.
  unfold has_column.
  destruct (getitem row c) as [ x | e ]; [ eauto | discriminate ].
Qed.

(** One step of the trace of [entry]: the lookup succeeds and the trace
    goes on, or it is the first to fail and its label is the answer. *)
Ltac lookup_or_first_missing row c x before after :=
  let Hg := fresh "Hg" in
  destruct (getitem row c) as [ x | ? ] eqn:Hg; cbn [bind];
  [ | let Hk := fresh "Hk" in
      intros [= Hk]; pose proof (getitem_Raise _ _ _ Hg) as ->;
      injection Hk as <-;
      exists before, after;
      unfold has_column, rank_non_numeric; cbn [forallb];
      repeat match goal with
             | Hx : getitem row _ = _ |- _ => rewrite Hx; clear Hx
             end;
      cbn [andb app]; repeat split; try reflexivity;
      try (intros Hin; cbn [In] in Hin;
           repeat (destruct Hin as [ Hin | Hin ]; [ discriminate Hin | ]);
           contradiction) ].

(** X3. A row fails with [KeyError] for a label exactly when that label
    is the first recognised column, in the order the dict display reads
    them, that the row lacks, and, if the rank is read before it, the rank
    is numeric. *)
Theorem key_error_names_first_missing_column (row : Series) (c : string) :
  entry row = Raise (KeyError c) <->
  exists before after,
    expected_columns = (before ++ c :: after)%list /\
    forallb (has_column row) before = true /\
    has_column row c = false /\
    (In "Frequency Rank" before -> rank_non_numeric row = false).
Proof.
  split.
  - unfold entry.
    lookup_or_first_missing row "Word" korean (@nil string)
      [ "English"; "Hanja/Ref."; "Classification"; "Frequency Rank";
        "Complexity"; "Wordreference Link"; "Wiktionary Link" ].
    lookup_or_first_missing row "English" en [ "Word" ]
      [ "Hanja/Ref."; "Classification"; "Frequency Rank";
        "Complexity"; "Wordreference Link"; "Wiktionary Link" ].
    lookup_or_first_missing row "Hanja/Ref." h [ "Word"; "English" ]
      [ "Classification"; "Frequency Rank";
        "Complexity"; "Wordreference Link"; "Wiktionary Link" ].
    assert (Hh : (if isna h then OK PyNone else OK (Py h)) =
                 OK (if isna h then PyNone else Py h))
      by (destruct (isna h); reflexivity).
    rewrite Hh; cbn [bind]; clear Hh.
    lookup_or_first_missing row "Classification" cl
      [ "Word"; "English"; "Hanja/Ref." ]
      [ "Frequency Rank"; "Complexity"; "Wordreference Link";
        "Wiktionary Link" ].
    lookup_or_first_missing row "Frequency Rank" rank
      [ "Word"; "English"; "Hanja/Ref."; "Classification" ]
      [ "Complexity"; "Wordreference Link"; "Wiktionary Link" ].
    destruct (int rank) as [ z | e ] eqn:Hi; cbn [bind].
    + pose proof (int_OK_numeric _ _ Hi) as Hnum.
      lookup_or_first_missing row "Complexity" cx
        [ "Word"; "English"; "Hanja/Ref."; "Classification";
          "Frequency Rank" ]
        [ "Wordreference Link"; "Wiktionary Link" ];
        [ | rewrite Hnum; reflexivity ].
      lookup_or_first_missing row "Wordreference Link" wr
        [ "Word"; "English"; "Hanja/Ref."; "Classification";
          "Frequency Rank"; "Complexity" ]
        [ "Wiktionary Link" ];
        [ | rewrite Hnum; reflexivity ].
      lookup_or_first_missing row "Wiktionary Link" wk
        [ "Word"; "English"; "Hanja/Ref."; "Classification";
          "Frequency Rank"; "Complexity"; "Wordreference Link" ]
        (@nil string);
        [ | rewrite Hnum; reflexivity ].
      discriminate.
    + intros [= ->]. apply int_Raise in Hi. destruct Hi as [Hc _].
      discriminate.
  - intros (before & after & Hsplit & Hb & Hc & Hrank).
    apply has_column_false in Hc.
    assert (Hint : In "Frequency Rank" before ->
                   forall rank, getitem row "Frequency Rank" = OK rank ->
                                exists z, int rank = OK z).
    { intros Hin rank Hr. specialize (Hrank Hin).
      unfold rank_non_numeric in Hrank. rewrite Hr in Hrank.
      apply negb_false_iff in Hrank. apply int_numeric; exact Hrank. }
    unfold expected_columns in Hsplit. unfold entry.
    repeat (destruct before as [ | b before ];
            cbn [app] in Hsplit;
            [ injection Hsplit as <- <-; rewrite Hc; reflexivity
            | injection Hsplit as <- Hsplit;
              cbn [forallb] in Hb; apply andb_true_iff in Hb;
              let Hx := fresh "Hx" in
              let x := fresh "x" in
              destruct Hb as [Hx Hb]; apply has_column_true in Hx;
              destruct Hx as (x & Hx); rewrite Hx; cbn [bind];
              try match goal with
                  | |- context [isna ?h] => destruct (isna h); cbn [bind]
                  end;
              try match goal with
                  | Hr : getitem row "Frequency Rank" = OK ?r
                    |- context [int ?r] =>
                      let z := fresh "z" in
                      let Hz := fresh "Hz" in
                      destruct (Hint ltac:(simpl; tauto) r Hr) as (z & Hz);
                      rewrite Hz; cbn [bind]
                  end ]);
      try (destruct before; discriminate Hsplit).
Qed.

End FirstFailure.

(* ====================================================================== *)
(** ** Rows, tables and runs taken together *)
(* ====================================================================== *)

Section Composition.

Context `{Builtins}.

(** A row with distinct labels is read the same way in any column
    order. *)
Lemma getitem_Permutation (r1 r2 : Series) :
  Permutation r1 r2 -> NoDup (labels r1) ->
  forall c, getitem r1 c = getitem r2 c.
Proof.
  induction 1 as [ | [l x] r1 r2 Hp IH | [l1 x1] [l2 x2] r | r1 r2 r3 H12 IH12
                   H23 IH23 ]; intros Hnd c.
  - reflexivity.
  - simpl. inversion Hnd; subst.
    destruct (String.eqb l c); [ reflexivity | apply IH; assumption ].
  - simpl. destruct (String.eqb_spec l1 c) as [ -> | _ ];
      destruct (String.eqb_spec l2 c) as [ -> | _ ]; try reflexivity.
    inversion Hnd as [ | ? ? Hnotin _ ]; subst. simpl in Hnotin. tauto.
  - rewrite IH12 by assumption. apply IH23.
    unfold labels in *.
    apply (Permutation_NoDup (Permutation_map fst H12)). exact Hnd.
Qed.

(** Runs on tables that the loop maps alike end alike. *)
Lemma main_same_loop (df1 df2 : DataFrame) (out : option string) :
  loop (iterrows df1) [] = loop (iterrows df2) [] ->
  snd (main {| csv_file := Some df1; json_file := out |}) =
  snd (main {| csv_file := Some df2; json_file := out |}) /\
  json_file (fst (main {| csv_file := Some df1; json_file := out |})) =
  json_file (fst (main {| csv_file := Some df2; json_file := out |})).
Proof.
  intros Hl. unfold main, read_csv; simpl. rewrite Hl.
  destruct (loop (iterrows df2) []) as [result | e]; simpl.
  - unfold write_json. destruct (dump result 2 ""); simpl. split; reflexivity.
  - split; reflexivity.
Qed.

(** X4. The order of the columns does not matter: when each row of one
    table is a rearrangement of the row at the same place of another, with
    distinct labels, the two tables give the same records or the same
    exception, and runs on them end alike with the same output file. *)
Theorem column_order_is_irrelevant (df1 df2 : DataFrame) :
  Forall2 (fun r1 r2 => NoDup (labels r1) /\ Permutation r1 r2)
          (iterrows df1) (iterrows df2) ->
  loop (iterrows df1) [] = loop (iterrows df2) [] /\
  forall out : option string,
    snd (main {| csv_file := Some df1; json_file := out |}) =
    snd (main {| csv_file := Some df2; json_file := out |}) /\
    json_file (fst (main {| csv_file := Some df1; json_file := out |})) =
    json_file (fst (main {| csv_file := Some df2; json_file := out |})).
Proof.
  intros Hp.
  assert (Hl : loop (iterrows df1) [] = loop (iterrows df2) []).
  { apply loop_agree.
    induction Hp as [ | r1 r2 rows1 rows2 [Hnd Hperm] _ IH ];
      constructor; [ | exact IH ].
    intros c _. apply getitem_Permutation; assumption. }
  split; [ exact Hl | ]. intros out. apply main_same_loop. exact Hl.
Qed.

(** X6. Running the script again changes nothing: a second run on the
    files the first run left ends like the first and leaves the same
    files. *)
Theorem second_run_changes_nothing (w : World) :
  main (fst (main w)) = main w.
Proof.
  destruct (main_cases w) as [(Hnone & Hr) | [(df & e & Hcsv & Hl & Hr)
                                             | (df & result & Hcsv & Hl & Hr)]];
    rewrite Hr; cbn [fst]; try exact Hr.
  unfold main, read_csv. cbn [csv_file]. rewrite Hcsv, Hl.
  unfold write_json. rewrite dump_spec. reflexivity.
Qed.

(** X7. The output file is overwritten, never extended: runs that start
    from the same input end with the same exception whatever the output
    file held, and when every row is mapped they leave the same output
    file. *)
Theorem earlier_output_is_overwritten (df : DataFrame)
    (out1 out2 : option string) :
  snd (main {| csv_file := Some df; json_file := out1 |}) =
  snd (main {| csv_file := Some df; json_file := out2 |}) /\
  (forallb mappable (iterrows df) = true ->
   fst (main {| csv_file := Some df; json_file := out1 |}) =
   fst (main {| csv_file := Some df; json_file := out2 |})).
Proof.
  unfold main, read_csv; cbn [csv_file]. split.
  - destruct (loop (iterrows df) []) as [ result | e ]; [ | reflexivity ].
    unfold write_json. destruct (dump result 2 ""). reflexivity.
  - intros Hm. apply loop_OK_mappable in Hm. destruct Hm as (result & Hl).
    rewrite Hl. unfold write_json. destruct (dump result 2 ""). reflexivity.
Qed.

End Composition.

(* ====================================================================== *)
(** ** Columns the script does not read *)
(* ====================================================================== *)

Lemma getitem_coerce_row (t : dtype) (row : Series) (c : string) :
  getitem (coerce_row t row) c =
  match getitem row c with
  | OK x => OK (coerce t x)
  | Raise e => Raise e
  end.
Proof.
  induction row as [ | [l x] row IH ]; simpl; [ reflexivity | ].
  destruct (String.eqb l c); [ reflexivity | exact IH ].
Qed.

Lemma agree_coerce_row (t : dtype) (r1 r2 : Series) :
  agree r1 r2 -> agree (coerce_row t r1) (coerce_row t r2).
Proof.
  intros Ha c Hc. rewrite !getitem_coerce_row, (Ha c Hc). reflexivity.
Qed.

Lemma common_type_object (a : dtype) : common_type a object = object.
Proof. destruct a; reflexivity. Qed.

Lemma fold_common_object (l : list dtype) :
  fold_left common_type l object = object.
Proof.
  induction l as [ | d l IH ]; [ reflexivity | exact IH ].
Qed.

Lemma fold_common_In_object (l : list dtype) (a : dtype) :
  In object l -> fold_left common_type l a = object.
Proof.
  revert a; induction l as [ | d l IH ]; intros a Hin; [ contradiction | ].
  destruct Hin as [ -> | Hin ]; simpl.
  - rewrite common_type_object. apply fold_common_object.
  - apply IH; exact Hin.
Qed.

(** One text cell makes the rows of the whole table [object]. *)
Lemma values_dtype_text (df : DataFrame) (cells : list scalar) (x : scalar) :
  In cells (data df) -> In x cells -> dtype_of x = object ->
  values_dtype df = object.
Proof.
  intros Hrow Hx Ht. unfold values_dtype.
  assert (Hin : In x (List.concat (data df)))
    by (apply in_concat; exists cells; auto).
  destruct (List.concat (data df)) as [ | y rest ]; [ contradiction | ].
  destruct Hin as [ -> | Hin ].
  - rewrite Ht. apply fold_common_object.
  - apply fold_common_In_object. rewrite <- Ht. apply in_map; exact Hin.
Qed.

Lemma getitem_combine_In (cols : list string) (cells : list scalar)
    (c : string) (x : scalar) :
  getitem (combine cols cells) c = OK x -> In x cells.
Proof.
  revert cells; induction cols as [ | l cols IH ]; intros cells;
    [ discriminate | ].
  destruct cells as [ | y cells ]; [ discriminate | ]. simpl.
  destruct (String.eqb l c).
  - intros [= ->]. left; reflexivity.
  - intros Hg. right. apply IH; exact Hg.
Qed.

Lemma has_text_object (df : DataFrame) :
  has_text df = true -> values_dtype df = object.
Proof.
  unfold has_text, stored_rows. intros Ht.
  apply existsb_exists in Ht. destruct Ht as (row & Hrow & Hc).
  apply in_map_iff in Hrow. destruct Hrow as (cells & <- & Hcells).
  apply existsb_exists in Hc. destruct Hc as (c & _ & Hc).
  unfold holds_text in Hc.
  destruct (getitem (combine (columns df) cells) c) as [ x | e ] eqn:Hg;
    [ | discriminate ].
  destruct x; try discriminate.
  apply (values_dtype_text df cells _ Hcells (getitem_combine_In _ _ _ _ Hg)).
  reflexivity.
Qed.

Lemma agree_holds_text (r1 r2 : Series) :
  agree r1 r2 ->
  existsb (holds_text r1) expected_columns
  = existsb (holds_text r2) expected_columns.
Proof.
  intros Ha. unfold holds_text, expected_columns. cbn [existsb].
  rewrite !Ha by (simpl; tauto). reflexivity.
Qed.

Lemma agree_has_text (df1 df2 : DataFrame) :
  Forall2 agree (stored_rows df1) (stored_rows df2) ->
  has_text df1 = has_text df2.
Proof.
  unfold has_text.
  induction 1 as [ | r1 r2 rows1 rows2 Ha _ IH ]; [ reflexivity | ].
  cbn [existsb]. rewrite (agree_holds_text _ _ Ha), IH. reflexivity.
Qed.

Section Columns.

Context `{Builtins}.

(** C9, amended. Two tables that agree row by row on the eight recognised
    columns give the same records or the same exception, and runs on them
    end alike and leave the same output file, provided [iterrows] coerces
    the rows of both to the same dtype; this is the case whenever a
    recognised column holds text, whatever other columns the tables
    have. *)
Theorem recognised_columns_decide_under_one_dtype (df1 df2 : DataFrame) :
  Forall2 agree (stored_rows df1) (stored_rows df2) ->
  values_dtype df1 = values_dtype df2 \/ has_text df1 = true ->
  loop (iterrows df1) [] = loop (iterrows df2) [] /\
  forall out : option string,
    snd (main {| csv_file := Some df1; json_file := out |}) =
    snd (main {| csv_file := Some df2; json_file := out |}) /\
    json_file (fst (main {| csv_file := Some df1; json_file := out |})) =
    json_file (fst (main {| csv_file := Some df2; json_file := out |})).
Proof.
  intros Ha Hdt.
  assert (Ht : values_dtype df1 = values_dtype df2).
  { destruct Hdt as [ Ht | Htext ]; [ exact Ht | ].
    rewrite (has_text_object df1 Htext). symmetry. apply has_text_object.
    rewrite <- (agree_has_text _ _ Ha). exact Htext. }
  assert (Hl : loop (iterrows df1) [] = loop (iterrows df2) []).
  { apply loop_agree. unfold iterrows. rewrite Ht.
    induction Ha as [ | r1 r2 rows1 rows2 Hr _ IH ]; cbn [map];
      constructor; [ apply agree_coerce_row; exact Hr | exact IH ]. }
  split; [ exact Hl | ]. intros out. apply main_same_loop. exact Hl.
Qed.

End Columns.

(* ====================================================================== *)
(** ** The lines of the output file and the truncation of the rank *)
(* ====================================================================== *)

Lemma count_nl_app (a b : string) :
  count_nl (a ++ b) = count_nl a + count_nl b.
Proof.
  induction a as [ | c a IH ]; simpl; [ reflexivity | ].
  rewrite IH. apply Nat.add_assoc.
Qed.

(** No escape holds a raw line break. *)
Lemma count_nl_escape (c : ascii) : count_nl (escape c) = 0.
Proof.
  destruct c as [ [ | ] [ | ] [ | ] [ | ] [ | ] [ | ] [ | ] [ | ] ];
    reflexivity.
Qed.

Lemma count_nl_escape_all (s : string) : count_nl (escape_all s) = 0.
Proof.
  induction s as [ | c s IH ]; simpl; [ reflexivity | ].
  rewrite count_nl_app, count_nl_escape, IH. reflexivity.
Qed.

Lemma count_nl_uint (u : Decimal.uint) :
  count_nl (NilEmpty.string_of_uint u) = 0.
Proof.
  induction u; simpl; auto.
Qed.

Lemma count_nl_intstr (z : Z) : count_nl (intstr z) = 0.
Proof.
  unfold intstr, NilZero.string_of_int, NilZero.string_of_uint.
  destruct (Z.to_int z) as [ u | u ]; destruct u;
    try reflexivity; simpl; apply count_nl_uint.
Qed.

Section Layout.

Context `{Builtins}.

(** [float.__repr__] writes no line break. *)
Hypothesis float_repr_one_line : forall f, count_nl (float_repr f) = 0.

Lemma count_nl_token (v : pyval) : count_nl (token v) = 0.
Proof.
  destruct v as [ | [ s | z | f | [ | ] | z | b ] ]; try reflexivity.
  - simpl. rewrite !count_nl_app, count_nl_escape_all. reflexivity.
  - apply count_nl_intstr.
  - destruct f as [ | [ | ] | | ]; try reflexivity;
      apply float_repr_one_line.
Qed.

(** A record takes eleven lines: ten line breaks inside it. *)
Lemma count_nl_render_object (d : dict) :
  keys d = key_order -> count_nl (render_object d) = 10.
Proof.
  unfold keys, key_order. intros Hk.
  repeat (destruct d as [ | [? ?] d ]; cbn [map fst] in Hk;
          [ discriminate Hk | injection Hk as -> Hk ]).
  destruct d; [ | cbn [map] in Hk; discriminate Hk ].
  unfold render_object, member. cbn [map String.concat fst snd].
  rewrite !count_nl_app, !count_nl_token. reflexivity.
Qed.

Lemma count_nl_objects (l : list dict) :
  Forall (fun d => keys d = key_order) l -> l <> [] ->
  count_nl (String.concat ("," ++ nl ++ "  ") (map render_object l))
  = 11 * List.length l - 1.
Proof.
  induction 1 as [ | d l Hd Hl IH ]; intros Hne; [ contradiction | ].
  destruct l as [ | d' l ].
  - cbn [map String.concat]. rewrite (count_nl_render_object _ Hd).
    reflexivity.
  - cbn [map String.concat] in *. rewrite !count_nl_app.
    rewrite (count_nl_render_object _ Hd), IH by discriminate.
    change (count_nl ",") with 0. change (count_nl nl) with 1.
    change (count_nl "  ") with 0. cbn [List.length]. lia.
Qed.

(** X8. The cells cannot break the layout of the output file: after a
    successful run on a table with rows the file has eleven line breaks
    per row and one more, whatever text the cells hold, because the
    encoder escapes every line break inside a string; on a table without
    rows it has none. *)
Theorem output_has_eleven_lines_per_row (w w' : World) (df : DataFrame) :
  main w = (w', None) ->
  csv_file w = Some df ->
  exists text,
    json_file w' = Some text /\
    count_nl text = match data df with
                    | [] => 0
                    | _ => 11 * List.length (data df) + 1
                    end.
Proof.
  intros Hm Hcsv.
  destruct (main_cases w) as [(Hnone & Hr) | [(df' & e & _ & _ & Hr)
                                             | (df' & result & Hcsv' & Hl & Hr)]];
    rewrite Hr in Hm; try discriminate; try congruence.
  assert (df' = df) by congruence; subst df'.
  injection Hm as <- Hs.
  destruct (forallb serializable_dict result) eqn:Hser; [ | discriminate ].
  pose proof (loop_keys _ _ Hl) as Hk.
  exists (render_array result). cbn [json_file]. split.
  - rewrite (gen_text_list _ Hk Hser). reflexivity.
  - assert (Hlen : List.length result = List.length (data df)).
    { apply loop_OK_iff, Forall2_length in Hl.
      unfold iterrows, stored_rows in Hl.
      rewrite !length_map in Hl. symmetry; exact Hl. }
    destruct result as [ | d result ].
    + destruct (data df); [ reflexivity | discriminate Hlen ].
    + destruct (data df) as [ | r rs ] eqn:Hdata; [ discriminate Hlen | ].
      rewrite <- Hlen. unfold render_array.
      rewrite !count_nl_app, (count_nl_objects _ Hk) by discriminate.
      change (count_nl "[") with 0. change (count_nl nl) with 1.
      change (count_nl "  ") with 0. change (count_nl "]") with 0.
      cbn [List.length]. lia.
Qed.

End Layout.

Section Truncation.

Context `{Builtins}.

(** X9. A finite float rank is not rejected and not rounded: the
    [frequency] of the record is the rank truncated towards zero, with the
    sign of the rank and the integer part of its magnitude. *)
Theorem float_rank_is_truncated (row : Series) (d : dict)
    (s : bool) (m : positive) (e : Z) :
  entry row = OK d ->
  getitem row "Frequency Rank" = OK (Float (S754_finite s m e)) ->
  exists z,
    dict_get d "frequency" = Some (Py (Int z)) /\
    (if s then z <= 0 else 0 <= z)%Z /\
    (0 <= e -> Z.abs z = Z.pos m * 2 ^ e)%Z /\
    (e < 0 -> Z.abs z * 2 ^ (- e) <= Z.pos m < (Z.abs z + 1) * 2 ^ (- e))%Z.
Proof.
  intros He Hr. apply entry_inv in He.
  destruct He as (korean & en & h & cl & rank & z & cx & wr & wk & _ & _
                  & _ & _ & Hrank & Hz & _ & _ & _ & ->).
  rewrite Hr in Hrank. injection Hrank as <-.
  exists z. split; [ reflexivity | ].
  unfold int, float_trunc in Hz.
  assert (Hval : z = if s
                     then (- (if (0 <=? e)%Z then Z.pos m * 2 ^ e
                              else Z.pos m / 2 ^ (- e)))%Z
                     else (if (0 <=? e)%Z then Z.pos m * 2 ^ e
                           else Z.pos m / 2 ^ (- e))%Z)
    by congruence.
  clear Hz. rewrite Hval. clear Hval.
  destruct (Z.leb_spec 0 e) as [ Hpos | Hneg ].
  - assert (Hmag : (0 < Z.pos m * 2 ^ e)%Z)
      by (apply Z.mul_pos_pos; [ lia | apply Z.pow_pos_nonneg; lia ]).
    repeat split.
    + destruct s; lia.
    + intros _. destruct s; lia.
    + lia.
    + lia.
  - assert (Hpow : (0 < 2 ^ (- e))%Z) by (apply Z.pow_pos_nonneg; lia).
    assert (Hq : (0 <= Z.pos m / 2 ^ (- e))%Z)
      by (apply Z.div_pos; lia).
    pose proof (Z.mul_div_le (Z.pos m) _ Hpow) as Hle.
    pose proof (Z.mul_succ_div_gt (Z.pos m) _ Hpow) as Hgt.
    assert (Habs : Z.abs (if s then - (Z.pos m / 2 ^ (- e))
                          else Z.pos m / 2 ^ (- e))
                   = (Z.pos m / 2 ^ (- e))%Z)
      by (destruct s; lia).
    repeat split.
    + destruct s; lia.
    + lia.
    + rewrite Habs. lia.
    + rewrite Habs. lia.
Qed.

End Truncation.

(* ====================================================================== *)
(** ** The output file as a JSON text *)
(* ====================================================================== *)

Section JsonText.

Import Grammar.

Lemma run_app (a b : string) (st : state) :
  run (a ++ b) st =
  match run a st with
  | Some st' => run b st'
  | None => None
  end.
Proof.
  revert st; induction a as [ | c a IH ]; intros st; simpl;
    [ reflexivity | ].
  destruct (step st c); [ apply IH | reflexivity ].
Qed.

(** Splits a character into its 256 cases. *)
Ltac each_character c :=
  destruct c as [ [ | ] [ | ] [ | ] [ | ] [ | ] [ | ] [ | ] [ | ] ].

(** A comma or a line break is no part of a number. *)
Lemma nstep_ends_value (n : nstate) (c : ascii) :
  ends_value c = true -> nstep n c = None.
Proof.
  each_character c; intros Hc; try discriminate Hc;
    destruct n; reflexivity.
Qed.

(** A complete number ends at a comma or a line break. *)
Lemma step_number_done (n : nstate) (stack : list container) (c : ascii) :
  naccept n = true -> ends_value c = true ->
  step (Number n, stack) c = step (After, stack) c.
Proof.
  intros Hn Hc. cbn [step]. rewrite (nstep_ends_value n c Hc), Hn.
  reflexivity.
Qed.

Lemma value_text_null : value_text "null".
Proof. intros stack c r Hc. reflexivity. Qed.

Lemma value_text_true : value_text "true".
Proof. intros stack c r Hc. reflexivity. Qed.

Lemma value_text_false : value_text "false".
Proof. intros stack c r Hc. reflexivity. Qed.

(** What [escape] writes for a character keeps the recogniser inside the
    string. *)
Lemma run_escape (c : ascii) (key : bool) (stack : list container) :
  run (escape c) (InString key, stack) = Some (InString key, stack).
Proof.
  each_character c; reflexivity.
Qed.

Lemma run_escape_all (s : string) (key : bool) (stack : list container) :
  run (escape_all s) (InString key, stack) = Some (InString key, stack).
Proof.
  induction s as [ | c s IH ]; [ reflexivity | ].
  change (escape_all (String c s)) with (escape c ++ escape_all s).
  rewrite run_app, run_escape. exact IH.
Qed.

(** Every string the encoder writes is a JSON string. *)
Lemma value_text_string (s : string) :
  value_text (dquote ++ escape_all s ++ dquote).
Proof.
  intros stack c r Hc. rewrite !append_assoc.
  change (dquote ++ escape_all s ++ dquote ++ String c r)
    with (String (ascii_of_nat 34)
            (escape_all s ++ String (ascii_of_nat 34) (String c r))).
  cbn [run]. change (step (Value, stack) (ascii_of_nat 34))
    with (Some (InString false, stack)).
  cbv beta iota. rewrite run_app, run_escape_all. reflexivity.
Qed.

Lemma run_nrun (s : string) (n n' : nstate) (stack : list container) :
  nrun s n = Some n' -> run s (Number n, stack) = Some (Number n', stack).
Proof.
  revert n; induction s as [ | c s IH ]; intros n; simpl.
  - intros [= ->]. reflexivity.
  - destruct (nstep n c) as [ n1 | ]; [ apply IH | discriminate ].
Qed.

Lemma step_number_start (c : ascii) (n : nstate) (stack : list container) :
  nstep NStart c = Some n -> step (Value, stack) c = Some (Number n, stack).
Proof.
  each_character c; intros Hn; try discriminate Hn;
    injection Hn as <-; reflexivity.
Qed.

(** Every number of the grammar reads as a value. *)
Lemma value_text_number (s : string) :
  is_number s = true -> value_text s.
Proof.
  unfold is_number. intros Hs stack c r Hc.
  destruct s as [ | d s ]; [ discriminate Hs | ].
  cbn [nrun] in Hs.
  destruct (nstep NStart d) as [ n1 | ] eqn:Hd; [ | discriminate Hs ].
  destruct (nrun s n1) as [ n | ] eqn:Hrun; [ | discriminate Hs ].
  cbn [append run]. rewrite (step_number_start d n1 stack Hd).
  rewrite run_app, (run_nrun s n1 n stack Hrun).
  cbn [run]. rewrite (step_number_done n stack c Hs Hc). reflexivity.
Qed.

Lemma nrun_digits (u : Decimal.uint) :
  nrun (NilEmpty.string_of_uint u) NInt = Some NInt.
Proof.
  induction u; simpl; auto.
Qed.

(** The decimal digits of a positive number do not start with a zero. *)
Lemma nrun_positive (p : positive) (n : nstate) :
  n = NStart \/ n = NMinus ->
  nrun (NilEmpty.string_of_uint (Pos.to_uint p)) n = Some NInt.
Proof.
  intros Hn.
  pose proof (DecimalPos.Unsigned.to_of (Pos.to_uint p)) as Hnorm.
  rewrite DecimalPos.Unsigned.of_to in Hnorm. cbn [N.to_uint] in Hnorm.
  pose proof (DecimalPos.Unsigned.to_uint_nonzero p) as Hnz.
  unfold Decimal.unorm in Hnorm.
  destruct (Decimal.nzhead (Pos.to_uint p)) as [ | u | u | u | u | u | u | u
                                               | u | u | u ] eqn:Hhead.
  - congruence.
  - exfalso. exact (DecimalFacts.nzhead_nonzero _ _ Hhead).
  - rewrite Hnorm. destruct Hn as [ -> | -> ]; simpl; apply nrun_digits.
  - rewrite Hnorm. destruct Hn as [ -> | -> ]; simpl; apply nrun_digits.
  - rewrite Hnorm. destruct Hn as [ -> | -> ]; simpl; apply nrun_digits.
  - rewrite Hnorm. destruct Hn as [ -> | -> ]; simpl; apply nrun_digits.
  - rewrite Hnorm. destruct Hn as [ -> | -> ]; simpl; apply nrun_digits.
  - rewrite Hnorm. destruct Hn as [ -> | -> ]; simpl; apply nrun_digits.
  - rewrite Hnorm. destruct Hn as [ -> | -> ]; simpl; apply nrun_digits.
  - rewrite Hnorm. destruct Hn as [ -> | -> ]; simpl; apply nrun_digits.
  - rewrite Hnorm. destruct Hn as [ -> | -> ]; simpl; apply nrun_digits.
Qed.

(** [int.__repr__] writes a JSON number. *)
Lemma is_number_intstr (z : Z) : is_number (intstr z) = true.
Proof.
  unfold is_number, intstr, NilZero.string_of_int.
  destruct z as [ | p | p ]; cbn [Z.to_int].
  - reflexivity.
  - unfold NilZero.string_of_uint.
    pose proof (DecimalPos.Unsigned.to_uint_nonnil p) as Hnn.
    destruct (Pos.to_uint p) eqn:Hu; [ congruence | .. ];
      rewrite <- Hu, nrun_positive by (left; reflexivity); reflexivity.
  - unfold NilZero.string_of_uint.
    pose proof (DecimalPos.Unsigned.to_uint_nonnil p) as Hnn.
    cbn [nrun]. change (nstep NStart "-"%char) with (Some NMinus).
    destruct (Pos.to_uint p) eqn:Hu; [ congruence | .. ];
      rewrite <- Hu, nrun_positive by (right; reflexivity); reflexivity.
Qed.

Context `{Builtins}.

(** [float.__repr__] writes a finite float as a JSON number. *)
Hypothesis float_repr_number :
  forall f, is_finite f = true -> is_number (float_repr f) = true.

(** Every value that JSON has is written as a JSON value. *)
Lemma value_text_token (v : pyval) :
  json_value v = true -> value_text (token v).
Proof.
  destruct v as [ | [ s | z | f | [ | ] | z | b ] ]; cbn [json_value token];
    intros Hv; try discriminate Hv.
  - exact value_text_null.
  - apply value_text_string.
  - apply value_text_number, is_number_intstr.
  - apply value_text_number.
    destruct f as [ sz | si | | sf m e ]; try discriminate Hv;
      apply float_repr_number; reflexivity.
  - exact value_text_true.
  - exact value_text_false.
Qed.

Lemma concat_one (sep x : string) : String.concat sep [x] = x.
Proof. reflexivity. Qed.

Lemma concat_more (sep x y : string) (l : list string) :
  String.concat sep (x :: y :: l) = x ++ sep ++ String.concat sep (y :: l).
Proof. reflexivity. Qed.

Lemma key_order_texts : Forall key_text key_order.
Proof.
  repeat constructor; intros stack r; split; reflexivity.
Qed.

Lemma run_colon (x : string) (stack : list container) :
  run (": " ++ x) (Colon, stack) = run x (Value, stack).
Proof. reflexivity. Qed.

Lemma run_next_member (x : string) (stack : list container) :
  run (String "," (nl ++ "    " ++ x)) (After, InObject :: stack)
  = run x (Key, InObject :: stack).
Proof. reflexivity. Qed.

Lemma run_next_object (x : string) (stack : list container) :
  run (String "," (nl ++ "  " ++ x)) (After, InArray :: stack)
  = run x (Value, InArray :: stack).
Proof. reflexivity. Qed.

(** The members of a record, one per line, read as the members of an
    object. *)
Lemma run_members (d : dict) :
  d <> [] -> Forall key_text (keys d) -> json_record d = true ->
  forall m stack c r,
    m = Key \/ m = KeyOrClose -> ends_value c = true ->
    run (String.concat ("," ++ nl ++ "    ") (map member d) ++ String c r)
        (m, InObject :: stack)
    = run (String c r) (After, InObject :: stack).
Proof.
  induction d as [ | [k v] d IH ]; intros Hne Hk Hv m stack c r Hm Hc;
    [ contradiction | ].
  unfold keys in Hk. cbn [map fst] in Hk. inversion Hk as [ | ? ? Hkey Hk' ];
    subst.
  unfold json_record in Hv. cbn [forallb snd] in Hv.
  apply andb_true_iff in Hv. destruct Hv as [Hval Hv'].
  pose proof (value_text_token v Hval) as Htok.
  assert (Hstart : forall x,
             run (dquote ++ k ++ dquote ++ ": " ++ x) (m, InObject :: stack)
             = run x (Value, InObject :: stack)).
  { intros x. destruct (Hkey (InObject :: stack) (": " ++ x)) as [H1 H2].
    destruct Hm as [ -> | -> ]; [ rewrite H1 | rewrite H2 ];
      apply run_colon. }
  destruct d as [ | kv' d' ].
  - cbn [map]. rewrite concat_one. unfold member. cbn [fst snd].
    rewrite !append_assoc, Hstart. apply Htok. exact Hc.
  - cbn [map]. rewrite concat_more. unfold member at 1. cbn [fst snd].
    rewrite !append_assoc, Hstart.
    change ("," ++ nl ++ "    " ++
            String.concat ("," ++ nl ++ "    ") (member kv' :: map member d')
            ++ String c r)
      with (String ","
              (nl ++ "    " ++
               (String.concat ("," ++ nl ++ "    ") (map member (kv' :: d'))
                ++ String c r))).
    rewrite Htok by reflexivity. rewrite run_next_member.
    apply IH; try assumption; [ discriminate | left; reflexivity ].
Qed.

(** A record with JSON values reads as an object. *)
Lemma run_object (d : dict) :
  keys d = key_order -> json_record d = true ->
  forall m stack,
    m = Value \/ m = ValueOrClose ->
    run (render_object d) (m, stack) = Some (After, stack).
Proof.
  intros Hk Hv m stack Hm.
  assert (Hne : d <> []) by (intros ->; discriminate Hk).
  assert (Hkt : Forall key_text (keys d))
    by (rewrite Hk; exact key_order_texts).
  unfold render_object.
  assert (Hopen : forall x,
             run ("{" ++ nl ++ "    " ++ x) (m, stack)
             = run x (KeyOrClose, InObject :: stack))
    by (intros x; destruct Hm as [ -> | -> ]; reflexivity).
  rewrite Hopen.
  change (nl ++ "  }") with (String (ascii_of_nat 10) "  }").
  rewrite (run_members d Hne Hkt Hv KeyOrClose stack)
    by (auto; reflexivity).
  reflexivity.
Qed.

(** The records, separated by a comma and a line break, read as the
    elements of an array. *)
Lemma run_objects (l : list dict) :
  l <> [] -> Forall (fun d => keys d = key_order) l ->
  forallb json_record l = true ->
  forall m stack c r,
    m = Value \/ m = ValueOrClose -> ends_value c = true ->
    run (String.concat ("," ++ nl ++ "  ") (map render_object l)
         ++ String c r) (m, InArray :: stack)
    = run (String c r) (After, InArray :: stack).
Proof.
  induction l as [ | d l IH ]; intros Hne Hk Hv m stack c r Hm Hc;
    [ contradiction | ].
  inversion Hk as [ | ? ? Hd Hk' ]; subst.
  cbn [forallb] in Hv. apply andb_true_iff in Hv. destruct Hv as [Hvd Hv'].
  destruct l as [ | d' l' ].
  - cbn [map]. rewrite concat_one.
    rewrite run_app, (run_object d Hd Hvd m _ Hm). reflexivity.
  - cbn [map]. rewrite concat_more, !append_assoc.
    rewrite run_app, (run_object d Hd Hvd m _ Hm).
    change ("," ++ nl ++ "  " ++
            String.concat ("," ++ nl ++ "  ")
              (render_object d' :: map render_object l') ++ String c r)
      with (String ","
              (nl ++ "  " ++
               (String.concat ("," ++ nl ++ "  ")
                  (map render_object (d' :: l')) ++ String c r))).
    rewrite run_next_object.
    apply IH; try assumption; [ discriminate | left; reflexivity ].
Qed.

(** The array of records with JSON values is a JSON text. *)
Lemma render_array_is_json (l : list dict) :
  Forall (fun d => keys d = key_order) l ->
  forallb json_record l = true ->
  is_json (render_array l) = true.
Proof.
  intros Hk Hv. destruct l as [ | d l ]; [ reflexivity | ].
  unfold is_json, render_array.
  change ("[" ++ nl ++ "  " ++
          String.concat ("," ++ nl ++ "  ") (map render_object (d :: l))
          ++ nl ++ "]")
    with (String "[" (nl ++ "  " ++
          (String.concat ("," ++ nl ++ "  ") (map render_object (d :: l))
           ++ String (ascii_of_nat 10) "]"))).
  change (run (String "[" (nl ++ "  " ++
          (String.concat ("," ++ nl ++ "  ") (map render_object (d :: l))
           ++ String (ascii_of_nat 10) "]"))) (Value, []))
    with (run (String.concat ("," ++ nl ++ "  ") (map render_object (d :: l))
               ++ String (ascii_of_nat 10) "]") (ValueOrClose, [InArray])).
  rewrite (run_objects (d :: l)) by (auto; try discriminate; reflexivity).
  reflexivity.
Qed.

End JsonText.

Section Format.

Context `{Builtins}.

(** C7, amended. After a successful run the output file holds one array
    of objects, each with the keys korean, en, zh, hanja, classification,
    frequency, complexity, wordreferencelink, wiktionarylink in that order,
    laid out with an indent of two spaces; every value is one the encoder
    accepts, the text is the UTF-8 text of the values, and a byte of a
    non-ASCII character is written as it is, not escaped.  The text is a
    JSON text when no record holds a NaN or an infinite float (given that
    [float.__repr__] writes a finite float as a JSON number); a NaN or an
    infinite float is written as a bare token that JSON does not have. *)
Theorem output_file_format (w w' : World) :
  main w = (w', None) ->
  exists df result,
    csv_file w = Some df /\
    loop (iterrows df) [] = OK result /\
    Forall (fun d => keys d = key_order) result /\
    forallb serializable_dict result = true /\
    json_file w' = Some (render_array result) /\
    (forall (a b : string) (c : ascii),
        128 <= nat_of_ascii c ->
        token (Py (Str (a ++ String c b)))
        = dquote ++ escape_all a ++ String c (escape_all b) ++ dquote) /\
    ((forall f, is_finite f = true ->
                Grammar.is_number (float_repr f) = true) ->
     forallb json_record result = true ->
     Grammar.is_json (render_array result) = true) /\
    (forall f, is_finite f = false ->
               Grammar.is_json (token (Py (Float f))) = false).
Proof.
  intros Hm.
  destruct (output_layout w w' Hm)
    as (df & result & Hcsv & Hl & Hk & Hser & Hfile & Hascii).
  exists df, result. repeat (split; [ assumption | ]). split.
  - intros Hfloat Hv. apply render_array_is_json; assumption.
  - intros f Hf. destruct f as [ sz | [ | ] | | sf m e ];
      try discriminate Hf; reflexivity.
Qed.

End Format.

(* ====================================================================== *)
(** ** The theorems on concrete tables *)
(* ====================================================================== *)

Import Demo.

(** The scenario of the specification, from table to file. *)
Example scenario_run :
  main (with_table scenario)
  = ({| csv_file := Some scenario; json_file := Some scenario_text |}, None).
Proof. reflexivity. Qed.

(** [int()] truncates towards zero: -3.5 gives -3; NaN and the infinities
    have no integer. *)
Example int_truncates : int (Float (S754_finite true 7 (-1))) = OK (-3)%Z.
Proof. reflexivity. Qed.

Example int_of_nan : int NaN = Raise ValueError.
Proof. reflexivity. Qed.

Example int_of_infinity : int (Float (S754_infinity false)) = Raise OverflowError.
Proof. reflexivity. Qed.

(** A quote, a line break and a control character are escaped; the bytes
    of a Hangul syllable are not. *)
Example escape_controls :
  escape_all ("a" ++ dquote ++ nl ++ String (ascii_of_nat 1) "")
  = "a\" ++ dquote ++ "\n\u0001".
Proof. reflexivity. Qed.

Example escape_hangul : encode_basestring "안녕" = quoted "안녕".
Proof. reflexivity. Qed.

(** The two scenario rows give the two scenario records, in order. *)
Lemma one_record_per_row_in_order_witness :
  loop (iterrows vocabulary) [] = OK [first_record; second_record] /\
  (List.length [first_record; second_record] = List.length (data vocabulary)
   /\ forall i row,
        nth_error (iterrows vocabulary) i = Some row ->
        exists e, nth_error [first_record; second_record] i = Some e /\
                  entry row = OK e).
Proof.
  split; [ reflexivity | ].
  apply (one_record_per_row_in_order vocabulary); reflexivity.
Defined.


Lemma zh_always_null_witness :
  loop (iterrows vocabulary) [] = OK [first_record; second_record] /\
  Forall (fun d => dict_get d "zh" = Some PyNone)
         [first_record; second_record].
Proof.
  split; [ reflexivity | ].
  apply (zh_always_null (iterrows vocabulary)); reflexivity.
Defined.

(** The missing Wordreference link of the second row stays the marker. *)
Lemma missing_passes_through_witness :
  entry second_row = OK second_record /\
  (dict_get second_record "wordreferencelink" = Some (Py NaN) /\
   dict_get second_record "wordreferencelink" <> Some PyNone /\
   iterencode_value (Py NaN) = Yield "NaN" Stop) /\
  getitem second_row "Frequency Rank" = OK (Int 2) /\ isna (Int 2) = false.
Proof.
  destruct (missing_passes_through second_row second_record eq_refl)
    as (Hcarried & Hrank).
  split; [ reflexivity | ]. split.
  - apply (Hcarried "Wordreference Link" "wordreferencelink" NaN);
      try reflexivity.
    simpl; tauto.
  - split; [ reflexivity | ]. apply Hrank. reflexivity.
Defined.

(** The scenario of the specification: the file is laid out as stated
    and is a JSON text. *)
Lemma output_file_format_witness :
  main (with_table scenario) = (fst (main (with_table scenario)), None) /\
  exists text,
    json_file (fst (main (with_table scenario))) = Some text /\
    Grammar.is_json text = true.
Proof.
  split; [ reflexivity | ].
  destruct (output_file_format (with_table scenario)
              (fst (main (with_table scenario))) eq_refl)
    as (df & result & Hcsv & Hl & _ & _ & Hfile & _ & Hjson & _).
  exists (render_array result). split; [ exact Hfile | ].
  apply Hjson.
  - intros f _. reflexivity.
  - injection Hcsv as <-. vm_compute in Hl. injection Hl as <-.
    reflexivity.
Defined.

(** Against C7 as worded: the run on the two scenario rows succeeds, and
    the missing Wordreference link of the second row is written as the
    bare token NaN, so the file is not a JSON text. *)
Lemma output_with_missing_cell_is_not_json :
  main world = (fst (main world), None) /\
  (exists text,
      json_file (fst (main world)) = Some text /\
      Grammar.is_json text = false) /\
  ~ successful_output_is_json world.
Proof.
  split; [ reflexivity | ]. split.
  - eexists. split; reflexivity.
  - intros Hclaim.
    destruct (Hclaim (fst (main world)) eq_refl) as (text & Hfile & Hjson).
    vm_compute in Hfile. injection Hfile as <-.
    vm_compute in Hjson. discriminate.
Qed.

Lemma empty_table_gives_empty_array_witness :
  (csv_file (with_table header_only) = Some header_only /\
   data header_only = []) /\
  main (with_table header_only) =
  ({| csv_file := csv_file (with_table header_only);
      json_file := Some "[]" |}, None).
Proof.
  split; [ split; reflexivity | ].
  apply (empty_table_gives_empty_array (with_table header_only) header_only);
    reflexivity.
Defined.

(** The scenario row is mapped with the integer 2; the row without a Word
    column and with an empty rank raises the missing-field error for Word;
    the rank spelled in words ends the run with a type-conversion
    error. *)
Lemma frequency_integer_or_conversion_error_witness :
  (exists rank z,
      getitem second_row "Frequency Rank" = OK rank /\ numeric rank = true /\
      int rank = OK z /\
      dict_get second_record "frequency" = Some (Py (Int z))) /\
  entry (combine (columns no_word) no_word_row) = Raise (KeyError "Word") /\
  (exists e, main (with_table spelled_rank)
             = (with_table spelled_rank, Some e) /\
             is_conversion_error e = true).
Proof.
  destruct (frequency_integer_or_conversion_error (H := builtins))
    as (Hint & _ & Hrow & Hfail).
  split; [ | split ].
  - apply (Hint second_row second_record). reflexivity.
  - destruct (Hrow (combine (columns no_word) no_word_row) eq_refl)
      as (e & He & Hk).
    cbn in Hk. rewrite Hk in He. exact He.
  - destruct (Hfail (with_table spelled_rank) spelled_rank
                (combine expected_columns
                   [ Str "안녕"; Str "peace"; Str "安寧"; Str "noun";
                     Str "twelve"; Str "B1"; Str "http://w";
                     Str "http://z" ]))
      as (before & bad & after & e & _ & _ & _ & Hm & _ & Hconv).
    + reflexivity.
    + simpl; tauto.
    + reflexivity.
    + exists e. split; [ exact Hm | apply Hconv; reflexivity ].
Defined.

(** With all eight columns and the rank spelled in words the failure is a
    type-conversion error; without the Wiktionary column and with numeric
    ranks it is a missing-field error; without the Wiktionary column and
    with an empty rank the conversion of the rank comes first. *)
Lemma error_kinds_by_first_failure_witness :
  fails_with is_conversion_error (with_table spelled_rank) /\
  fails_with is_key_error (with_table no_wiktionary_ranked) /\
  main (with_table no_wiktionary)
  = (with_table no_wiktionary, Some ValueError).
Proof.
  split; [ | split ].
  - destruct (error_kinds_by_first_failure (with_table spelled_rank))
      as (_ & _ & _ & Hconv & _).
    apply (Hconv spelled_rank); reflexivity.
  - destruct (error_kinds_by_first_failure (with_table no_wiktionary_ranked))
      as (_ & _ & _ & _ & Hkey & _).
    apply (Hkey no_wiktionary_ranked); reflexivity.
  - destruct (error_kinds_by_first_failure (with_table no_wiktionary))
      as (_ & _ & _ & _ & _ & Hfirst & _ & _).
    apply (Hfirst no_wiktionary []
             (combine (columns no_wiktionary)
                [ Str "안녕"; Str "hello"; NaN; Str "greeting"; NaN;
                  Str "A1"; Str "http://x" ])
             [] ValueError);
      try reflexivity.
    constructor.
Defined.

(** Against C2 as worded: the table has no Word column and its row has an
    empty rank; the run ends with the missing-field error of the first
    lookup, not with a type-conversion error. *)
Lemma non_numeric_rank_with_missing_word :
  In (combine (columns no_word) no_word_row) (iterrows no_word) /\
  rank_non_numeric (combine (columns no_word) no_word_row) = true /\
  main (with_table no_word) = (with_table no_word, Some (KeyError "Word")) /\
  is_conversion_error (KeyError "Word") = false /\
  ~ non_numeric_rank_is_conversion_error (with_table no_word).
Proof.
  assert (Hin : In (combine (columns no_word) no_word_row) (iterrows no_word))
    by (left; reflexivity).
  repeat split; try reflexivity; try exact Hin.
  intros Hclaim.
  destruct (Hclaim no_word _ eq_refl Hin eq_refl) as (e & Hm & Hc).
  assert (He : e = KeyError "Word").
  { assert (Hs : snd (main (with_table no_word)) = Some e)
      by (rewrite Hm; reflexivity).
    vm_compute in Hs. congruence. }
  rewrite He in Hc. discriminate.
Qed.

(** Against C4 as worded: on a table of integer columns every row is
    mapped, the output file is opened, and the dump fails at the first
    numpy integer; the output of the earlier run is gone and the file
    holds the opening of the array. *)
Lemma partial_output_on_unserialisable_value :
  (exists result, loop (iterrows all_integers) [] = OK result) /\
  snd (main (with_table all_integers)) = Some TypeError /\
  json_file (with_table all_integers) = Some "[]" /\
  json_file (fst (main (with_table all_integers))) =
  Some ("[" ++ nl ++ "  {" ++ nl ++ "    " ++ dquote ++ "korean" ++ dquote
            ++ ": ") /\
  ~ all_or_nothing (with_table all_integers).
Proof.
  repeat split; try reflexivity.
  - eexists; reflexivity.
  - intros [(Hnone & _) | Hsame].
    + vm_compute in Hnone. discriminate.
    + vm_compute in Hsame. discriminate.
Qed.

(** Against C5 as worded: the table lacks the Wiktionary column and its
    row has an empty rank; the conversion of the rank comes first, so the
    run ends with a type-conversion error although a column is missing. *)
Lemma missing_column_with_conversion_error :
  existsb incomplete (iterrows no_wiktionary) = true /\
  main (with_table no_wiktionary) = (with_table no_wiktionary, Some ValueError)
  /\ ~ fails_with is_key_error (with_table no_wiktionary)
  /\ ~ error_taxonomy (with_table no_wiktionary).
Proof.
  assert (Hno : ~ fails_with is_key_error (with_table no_wiktionary)).
  { intros (e & Hm & Hk). vm_compute in Hm.
    injection Hm as <-. discriminate. }
  repeat split; try reflexivity; try exact Hno.
  intros (_ & Hkey & _). apply Hno, Hkey.
  exists no_wiktionary. split; reflexivity.
Qed.

(** The scenario table is mapped and dumped. *)
Lemma run_succeeds_iff_witness : snd (main world) = None.
Proof.
  apply (run_succeeds_iff world). exists vocabulary.
  split; reflexivity.
Defined.

(** The table of integer columns is mapped and not dumped. *)
Lemma run_type_error_iff_witness :
  snd (main (with_table all_integers)) = Some TypeError.
Proof.
  apply (run_type_error_iff (with_table all_integers)). exists all_integers.
  repeat split; reflexivity.
Defined.

(** Without the Wiktionary column and with a numeric rank, the missing
    label is the one the exception names. *)
Lemma key_error_names_first_missing_column_witness :
  entry (combine (columns no_wiktionary_ranked)
           [ Str "안녕"; Str "hello"; NaN; Str "greeting"; Int 1; Str "A1";
             Str "http://x" ])
  = Raise (KeyError "Wiktionary Link").
Proof.
  apply key_error_names_first_missing_column.
  exists [ "Word"; "English"; "Hanja/Ref."; "Classification";
           "Frequency Rank"; "Complexity"; "Wordreference Link" ],
         (@nil string).
  repeat split; reflexivity.
Defined.

(** Settles that the labels of a concrete row are distinct. *)
Ltac distinct_labels :=
  unfold labels; cbn [map fst];
  repeat (apply NoDup_cons;
          [ let Hin := fresh "Hin" in
            intros Hin; cbn [In] in Hin;
            repeat (destruct Hin as [ Hin | Hin ]; [ discriminate Hin | ]);
            exact Hin
          | ]);
  apply NoDup_nil.

(** Settles that a concrete row with its first cell moved to the end is a
    rearrangement. *)
Ltac last_to_front :=
  apply Permutation_sym;
  match goal with
  | |- Permutation (?x :: ?l) _ => exact (Permutation_cons_append l x)
  end.

Lemma vocabulary_rearranged :
  Forall2 (fun r1 r2 => NoDup (labels r1) /\ Permutation r1 r2)
          (iterrows vocabulary) (iterrows reordered).
Proof.
  change (iterrows vocabulary) with (stored_rows vocabulary).
  change (iterrows reordered) with (stored_rows reordered).
  unfold stored_rows; cbn [map vocabulary reordered columns data].
  unfold expected_columns; cbn [combine].
  constructor; [ split; [ distinct_labels | last_to_front ] | ].
  constructor; [ split; [ distinct_labels | last_to_front ] | ].
  constructor.
Defined.

(** Moving the last column to the front changes nothing. *)
Lemma column_order_is_irrelevant_witness :
  loop (iterrows vocabulary) [] = loop (iterrows reordered) [] /\
  forall out : option string,
    snd (main {| csv_file := Some vocabulary; json_file := out |}) =
    snd (main {| csv_file := Some reordered; json_file := out |}) /\
    json_file (fst (main {| csv_file := Some vocabulary;
                            json_file := out |})) =
    json_file (fst (main {| csv_file := Some reordered;
                            json_file := out |})).
Proof.
  apply (column_order_is_irrelevant vocabulary reordered).
  exact vocabulary_rearranged.
Defined.

(** The two scenario records take twenty-three line breaks. *)
Lemma output_has_eleven_lines_per_row_witness :
  exists text,
    json_file (fst (main world)) = Some text /\ count_nl text = 23.
Proof.
  apply (@output_has_eleven_lines_per_row builtins (fun f => eq_refl)
           world (fst (main world)) vocabulary);
    reflexivity.
Defined.

(** The rank 2.5 gives the frequency 2. *)
Lemma float_rank_is_truncated_witness :
  exists z,
    dict_get fractional_record "frequency" = Some (Py (Int z)) /\
    (0 <= z)%Z /\
    (0 <= -1 -> Z.abs z = 5 * 2 ^ (-1))%Z /\
    (-1 < 0 -> Z.abs z * 2 ^ (- -1) <= 5 < (Z.abs z + 1) * 2 ^ (- -1))%Z.
Proof.
  apply (float_rank_is_truncated fractional_row fractional_record
           false 5 (-1)%Z);
    reflexivity.
Defined.

Lemma vocabulary_agrees_with_annotated :
  Forall2 agree (stored_rows vocabulary) (stored_rows annotated).
Proof.
  repeat constructor; intros c Hc; simpl in Hc;
    repeat (destruct Hc as [ <- | Hc ]; [ reflexivity | ]);
    contradiction.
Defined.

(** The extra Notes column of a table with text changes nothing. *)
Lemma recognised_columns_decide_under_one_dtype_witness :
  (Forall2 agree (stored_rows vocabulary) (stored_rows annotated) /\
   has_text vocabulary = true) /\
  (loop (iterrows vocabulary) [] = loop (iterrows annotated) [] /\
   forall out : option string,
     snd (main {| csv_file := Some vocabulary; json_file := out |}) =
     snd (main {| csv_file := Some annotated; json_file := out |}) /\
     json_file (fst (main {| csv_file := Some vocabulary;
                             json_file := out |})) =
     json_file (fst (main {| csv_file := Some annotated;
                             json_file := out |}))).
Proof.
  split; [ split; [ exact vocabulary_agrees_with_annotated | reflexivity ] | ].
  apply (recognised_columns_decide_under_one_dtype vocabulary annotated).
  - exact vocabulary_agrees_with_annotated.
  - right; reflexivity.
Defined.

(** Against C9 as worded: eight integer columns give rows of numpy
    integers and the dump fails; with one more column of text, which the
    script never reads, the rows hold Python integers and the run
    succeeds. *)
Lemma extra_column_changes_the_outcome :
  Forall2 agree (stored_rows all_integers) (stored_rows noted_integers) /\
  snd (main (with_table all_integers)) = Some TypeError /\
  snd (main (with_table noted_integers)) = None /\
  json_file (fst (main (with_table all_integers)))
  <> json_file (fst (main (with_table noted_integers))) /\
  ~ recognised_columns_decide all_integers noted_integers.
Proof.
  assert (Ha : Forall2 agree (stored_rows all_integers)
                 (stored_rows noted_integers)).
  { repeat constructor; intros c Hc; simpl in Hc;
      repeat (destruct Hc as [ <- | Hc ]; [ reflexivity | ]);
      contradiction. }
  split; [ exact Ha | ]. repeat split; try reflexivity.
  - vm_compute. discriminate.
  - intros Hclaim. specialize (Hclaim Ha). vm_compute in Hclaim.
    discriminate.
Qed.
